(** * Project operations of the MCP Kanban server (src/operations/projects.ts)

    A shallow embedding of the five project operations (getProjects,
    getProject, createProject, updateProject, deleteProject) together with
    the parts of the JavaScript runtime and of the zod validation library
    that they run on, followed by the properties of the operations.

    - a JavaScript [number] is an IEEE 754 binary64 value, Rocq's primitive
      [float]; comparisons are the primitive ones, so NaN and the infinities
      behave as they do in the runtime;
    - JSON-like runtime values are the inductive [value];
    - a promise that has settled is [settled]; an [async] function is run to
      its settled promise together with the list of requests it passed to
      [plankaRequest];
    - [plankaRequest] (src/common/utils) and [PlankaProjectSchema]
      (src/common/types) are collaborators defined outside this module: they
      are parameters of the development. *)

From Stdlib Require Import Floats ZArith String Ascii List Bool Lia.
From Stdlib Require Import DecimalString.
Import ListNotations.

Local Open Scope list_scope.
Local Open Scope string_scope.

(** ** JavaScript values *)

#[local] Set Warnings "-register-all".

Definition number := float.

Inductive value : Type :=
| VUndefined
| VNull
| VBool (b : bool)
| VNumber (n : number)
| VString (s : string)
| VArray (elements : list value)
| VObject (properties : list (string * value)).

(** Own properties of an object, in insertion order. *)
Definition properties_t := list (string * value).

Fixpoint lookup (key : string) (props : properties_t) : option value :=
  match props with
  | [] => None
  | (k, v) :: rest => if String.eqb k key then Some v else lookup key rest
  end.

(** Whether the object has an own property [key]; for the keys the schemas
    of this module name, none of which [Object.prototype] has, this is
    [key in obj]. *)
Definition has_property (key : string) (props : properties_t) : bool :=
  match lookup key props with Some _ => true | None => false end.

(** [obj[key]] for a key that [Object.prototype] does not have: a missing
    property reads as [undefined]. *)
Definition get (props : properties_t) (key : string) : value :=
  match lookup key props with Some v => v | None => VUndefined end.

(** [obj[key] = v]: overwrite in place, or add as the last property. *)
Fixpoint set (props : properties_t) (key : string) (v : value) : properties_t :=
  match props with
  | [] => [(key, v)]
  | (k, w) :: rest =>
      if String.eqb k key then (k, v) :: rest else (k, w) :: set rest key v
  end.

(** [o.key] on an arbitrary value that is known not to be null or undefined:
    only objects carry the properties modelled here. *)
Definition member (o : value) (key : string) : value :=
  match o with
  | VObject props => get props key
  | _ => VUndefined
  end.

Definition is_undefined (v : value) : bool :=
  match v with VUndefined => true | _ => false end.

(** [separator]-joined concatenation, as [Array.prototype.join]. *)
Fixpoint join (separator : string) (parts : list string) : string :=
  match parts with
  | [] => ""
  | [p] => p
  | p :: rest => p ++ separator ++ join separator rest
  end.

(** The elements of a list of optional strings, when none is missing. *)
Fixpoint all_some (parts : list (option string)) : option (list string) :=
  match parts with
  | [] => Some []
  | Some part :: rest => option_map (cons part) (all_some rest)
  | None :: _ => None
  end.

(** The message of the TypeError that the conversion of an object to a
    primitive value throws (the text of V8, the engine of Node.js). *)
Definition cannot_convert : string :=
  "Cannot convert object to primitive value".

Section ToString.

(** [Number.prototype.toString] (radix 10) of the runtime. *)
Variable Number_toString : number -> string.

(** [String(v)] for a value that is not an Error instance: the string, or
    [None] when the conversion throws a TypeError. An object is converted
    by the [toString] it finds: the one of [Object.prototype], which gives
    "[object Object]", unless the object has an own property [toString];
    none of the values modelled here is callable, so with such a property
    the conversion finds no method that returns a primitive and throws.
    An array is joined with commas, where null and undefined elements
    give the empty string and every other element is converted in the same
    way. *)
Fixpoint String_ (v : value) : option string :=
  match v with
  | VUndefined => Some "undefined"
  | VNull => Some "null"
  | VBool true => Some "true"
  | VBool false => Some "false"
  | VNumber n => Some (Number_toString n)
  | VString s => Some s
  | VArray elements =>
      option_map (join ",")
        (all_some
           (List.map
              (fun e =>
                 match e with
                 | VUndefined | VNull => Some ""
                 | _ => String_ e
                 end)
              elements))
  | VObject props =>
      if has_property "toString" props then None else Some "[object Object]"
  end.

(** The conversion to a string as the language standard words it, for the
    values that have one: [ToString v text] says that [String(v)] returns
    [text]; [ToStrings] gives the texts of the elements of an array. *)
Inductive ToString : value -> string -> Prop :=
| ToString_undefined : ToString VUndefined "undefined"
| ToString_null : ToString VNull "null"
| ToString_true : ToString (VBool true) "true"
| ToString_false : ToString (VBool false) "false"
| ToString_number (n : number) : ToString (VNumber n) (Number_toString n)
| ToString_string (s : string) : ToString (VString s) s
| ToString_array (elements : list value) (parts : list string) :
    ToStrings elements parts ->
    ToString (VArray elements) (join "," parts)
| ToString_object (props : properties_t) :
    lookup "toString" props = None ->
    ToString (VObject props) "[object Object]"
with ToStrings : list value -> list string -> Prop :=
| ToStrings_nil : ToStrings [] []
| ToStrings_undefined (rest : list value) (parts : list string) :
    ToStrings rest parts -> ToStrings (VUndefined :: rest) ("" :: parts)
| ToStrings_null (rest : list value) (parts : list string) :
    ToStrings rest parts -> ToStrings (VNull :: rest) ("" :: parts)
| ToStrings_element (e : value) (part : string)
    (rest : list value) (parts : list string) :
    e <> VUndefined -> e <> VNull ->
    ToString e part -> ToStrings rest parts ->
    ToStrings (e :: rest) (part :: parts).

End ToString.

Scheme ToString_mutual := Minimality for ToString Sort Prop
  with ToStrings_mutual := Minimality for ToStrings Sort Prop.

(** ** URLSearchParams

    The application/x-www-form-urlencoded serializer of the URL standard,
    on strings taken as UTF-8 byte sequences: ASCII alphanumerics and
    [*], [-], [.], [_] are kept, a space becomes [+], any other byte is
    percent-encoded with two upper-case hexadecimal digits. *)

Definition is_digit (c : ascii) : bool :=
  let n := nat_of_ascii c in (48 <=? n)%nat && (n <=? 57)%nat.

Definition is_alpha (c : ascii) : bool :=
  let n := nat_of_ascii c in
  ((65 <=? n)%nat && (n <=? 90)%nat) || ((97 <=? n)%nat && (n <=? 122)%nat).

Definition urlencoded_keep (c : ascii) : bool :=
  is_digit c || is_alpha c
  || Ascii.eqb c "*" || Ascii.eqb c "-" || Ascii.eqb c "." || Ascii.eqb c "_".

Definition hex_digit (n : nat) : ascii :=
  if (n <? 10)%nat then ascii_of_nat (48 + n) else ascii_of_nat (55 + n).

Definition percent_encode (c : ascii) : string :=
  let n := nat_of_ascii c in
  String "%" (String (hex_digit (n / 16)) (String (hex_digit (n mod 16)) "")).

Fixpoint urlencode (s : string) : string :=
  match s with
  | EmptyString => ""
  | String c rest =>
      (if urlencoded_keep c then String c ""
       else if Ascii.eqb c " " then "+"
       else percent_encode c) ++ urlencode rest
  end.

(** Every character of the string is one the serializer keeps. *)
Fixpoint all_kept (s : string) : bool :=
  match s with
  | EmptyString => true
  | String c rest => urlencoded_keep c && all_kept rest
  end.

(** The characters the serializer puts out: the kept ones, [+] for a space
    and [%] in front of two hexadecimal digits. *)
Definition urlencoded_char (c : ascii) : bool :=
  urlencoded_keep c || Ascii.eqb c "+" || Ascii.eqb c "%".

Fixpoint all_urlencoded (s : string) : bool :=
  match s with
  | EmptyString => true
  | String c rest => urlencoded_char c && all_urlencoded rest
  end.


Definition URLSearchParams := list (string * string).

Definition URLSearchParams_new : URLSearchParams := [].

Definition URLSearchParams_append
    (params : URLSearchParams) (name val : string) : URLSearchParams :=
  (params ++ [(name, val)])%list.

Definition URLSearchParams_toString (params : URLSearchParams) : string :=
  join "&" (List.map (fun nv => urlencode (fst nv) ++ "=" ++ urlencode (snd nv)) params).

(** ** zod

    A schema is its [parse] behaviour on a value: the validated output, or
    the issues that a ZodError would carry, of which there is at least one.
    Issues found below an object key or an array index have that key or
    index put in front of their path. *)

Inductive path_element : Type :=
| Key (k : string)
| Index (i : nat).

Record ZodIssue : Type := mkIssue {
  issue_code : string;
  issue_path : list path_element;
  issue_message : string
}.

Inductive ParseReturn : Type :=
| OK (output : value)
| INVALID (issue : ZodIssue) (more : list ZodIssue).

Definition ZodType := value -> ParseReturn.

(** [getParsedType]: the name zod gives to the runtime type of a value. *)
Definition getParsedType (v : value) : string :=
  match v with
  | VUndefined => "undefined"
  | VNull => "null"
  | VBool _ => "boolean"
  | VNumber n => if PrimFloat.is_nan n then "nan" else "number"
  | VString _ => "string"
  | VArray _ => "array"
  | VObject _ => "object"
  end.

(** The invalid_type issue with the message of zod's default error map. *)
Definition invalid_type (expected : string) (received : value) : ZodIssue :=
  mkIssue "invalid_type" []
    (if is_undefined received then "Required"
     else "Expected " ++ expected ++ ", received " ++ getParsedType received).

Definition under (p : path_element) (i : ZodIssue) : ZodIssue :=
  mkIssue (issue_code i) (p :: issue_path i) (issue_message i).

Definition issues_of (p : path_element) (r : ParseReturn) : list ZodIssue :=
  match r with
  | OK _ => []
  | INVALID issue more => List.map (under p) (issue :: more)
  end.

Definition z_any : ZodType := fun data => OK data.

Definition z_string : ZodType := fun data =>
  match data with
  | VString _ => OK data
  | _ => INVALID (invalid_type "string" data) []
  end.

Definition z_number : ZodType := fun data =>
  match data with
  | VNumber n =>
      if PrimFloat.is_nan n then INVALID (invalid_type "number" data) []
      else OK data
  | _ => INVALID (invalid_type "number" data) []
  end.

(** [schema.optional()] *)
Definition z_optional (inner : ZodType) : ZodType := fun data =>
  match data with
  | VUndefined => OK VUndefined
  | _ => inner data
  end.

(** Parses the elements of an array from index [i] on: the outputs of the
    valid elements and the issues of the others. *)
Fixpoint parse_elements (element : ZodType) (i : nat) (data : list value)
    : list value * list ZodIssue :=
  match data with
  | [] => ([], [])
  | d :: rest =>
      let r := element d in
      let '(outputs, issues) := parse_elements element (S i) rest in
      (match r with OK o => o :: outputs | INVALID _ _ => outputs end,
       (issues_of (Index i) r ++ issues)%list)
  end.

(** [z.array(element)] *)
Definition z_array (element : ZodType) : ZodType := fun data =>
  match data with
  | VArray elements =>
      match parse_elements element 0 elements with
      | (outputs, []) => OK (VArray outputs)
      | (_, issue :: more) => INVALID issue more
      end
  | _ => INVALID (invalid_type "array" data) []
  end.

(** The entries of an object without those under the key [__proto__]. *)
Definition without_proto (props : properties_t) : properties_t :=
  List.filter (fun entry => negb (String.eqb (fst entry) "__proto__")) props.

(** What [z.record(z.any())] puts out for a value it takes: an object with
    the same entries but for an own [__proto__], any other value as it
    is. *)
Definition merged (v : value) : value :=
  match v with
  | VObject entries => VObject (without_proto entries)
  | _ => v
  end.

(** Parses every own property of a record with the value schema. The
    outputs are merged into a fresh object, which takes every key but
    [__proto__]. *)
Fixpoint parse_entries (valueType : ZodType) (data : properties_t)
    : properties_t * list ZodIssue :=
  match data with
  | [] => ([], [])
  | (k, d) :: rest =>
      let r := valueType d in
      let '(outputs, issues) := parse_entries valueType rest in
      (match r with
       | OK o => if String.eqb k "__proto__" then outputs else (k, o) :: outputs
       | INVALID _ _ => outputs
       end,
       (issues_of (Key k) r ++ issues)%list)
  end.

(** [z.record(valueType)], with string keys. *)
Definition z_record (valueType : ZodType) : ZodType := fun data =>
  match data with
  | VObject props =>
      match parse_entries valueType props with
      | (outputs, []) => OK (VObject outputs)
      | (_, issue :: more) => INVALID issue more
      end
  | _ => INVALID (invalid_type "object" data) []
  end.

(** Parses the keys of an object shape, in the order of the shape, each
    against [data[key]]. The outputs are merged into a fresh object: a key
    other than [__proto__] enters it when its parsed value is not undefined
    or when the key is a property of the data; keys of the data that the
    shape does not name are stripped. *)
Fixpoint parse_shape (shape : list (string * ZodType)) (data : properties_t)
    : properties_t * list ZodIssue :=
  match shape with
  | [] => ([], [])
  | (key, keyValidator) :: rest =>
      let r := keyValidator (get data key) in
      let '(outputs, issues) := parse_shape rest data in
      (match r with
       | OK o =>
           if negb (String.eqb key "__proto__")
              && (negb (is_undefined o) || has_property key data)
           then (key, o) :: outputs else outputs
       | INVALID _ _ => outputs
       end,
       (issues_of (Key key) r ++ issues)%list)
  end.

(** [z.object(shape)] *)
Definition z_object (shape : list (string * ZodType)) : ZodType := fun data =>
  match data with
  | VObject props =>
      match parse_shape shape props with
      | (outputs, []) => OK (VObject outputs)
      | (_, issue :: more) => INVALID issue more
      end
  | _ => INVALID (invalid_type "object" data) []
  end.

(** The properties of the data that a shape does not name and that the
    merge keeps: those with a key other than [__proto__] and a value other
    than undefined. *)
Definition unknown_keys
    (shape : list (string * ZodType)) (data : properties_t) : properties_t :=
  List.filter
    (fun entry =>
       negb (List.existsb (String.eqb (fst entry)) (List.map fst shape))
       && negb (String.eqb (fst entry) "__proto__")
       && negb (is_undefined (snd entry)))
    data.

(** [z.object(shape).passthrough()]: as [z.object], but the properties of
    the data that the shape does not name are kept as they are, after the
    keys of the shape. *)
Definition z_object_passthrough (shape : list (string * ZodType)) : ZodType :=
  fun data =>
    match data with
    | VObject props =>
        match parse_shape shape props with
        | (outputs, []) => OK (VObject (outputs ++ unknown_keys shape props)%list)
        | (_, issue :: more) => INVALID issue more
        end
    | _ => INVALID (invalid_type "object" data) []
    end.

(** ** Promises and the request log *)

(** What a [throw] carries: an instance of Error (ZodError included) with
    its message, or any other value. *)
Inductive thrown : Type :=
| ErrorInstance (message : string)
| NotAnError (v : value).

Inductive settled (A : Type) : Type :=
| Fulfilled (a : A)
| Rejected (reason : thrown).

Arguments Fulfilled {A} a.
Arguments Rejected {A} reason.

(** The second argument of [plankaRequest]; a field left out of the object
    literal is [None]. *)
Record RequestOptions : Type := mkOptions {
  method : option string;
  body : option value
}.

(** One call [plankaRequest(path, options)]; [options] is [None] when the
    call passes the path alone. *)
Record call : Type := mkCall {
  call_path : string;
  call_options : option RequestOptions
}.

(** An async computation run to completion: the calls it made, in order,
    and its settled promise. *)
Definition async (A : Type) : Type := (list call * settled A)%type.

Definition requests {A} (m : async A) : list call := fst m.
Definition outcome {A} (m : async A) : settled A := snd m.

Definition ret {A} (a : A) : async A := ([], Fulfilled a).

Definition throw {A} (e : thrown) : async A := ([], Rejected e).

Definition bind {A B} (m : async A) (k : A -> async B) : async B :=
  match m with
  | (log, Fulfilled a) => let '(log', r) := k a in ((log ++ log')%list, r)
  | (log, Rejected e) => (log, Rejected e)
  end.

(** [try { m } catch (error) { handler error }] *)
Definition try_catch {A} (m : async A) (handler : thrown -> async A) : async A :=
  match m with
  | (log, Fulfilled a) => (log, Fulfilled a)
  | (log, Rejected e) => let '(log', r) := handler e in ((log ++ log')%list, r)
  end.

Declare Scope async_scope.
Delimit Scope async_scope with async.
Notation "x <- m ;; k" := (bind m (fun x => k))
  (at level 100, m at next level, right associativity) : async_scope.

(** ** Concrete collaborators

    Instances of the parameters of the development, used to run the
    operations on concrete inputs. *)

(** An instance of [Number.prototype.toString] for concrete runs. It agrees
    with the runtime on NaN, the infinities, zero and the integers up to
    2^53 in magnitude, which the runtime prints with all their decimal
    digits. It is not the runtime's function elsewhere: for a fraction or a
    larger magnitude the shortest round-trip digits of the runtime are not
    reproduced, and the result here is the empty string. *)
Definition Number_toString_plain (x : number) : string :=
  let decimal (negative : bool) (n : Z) : string :=
    if (n <=? 2 ^ 53)%Z
    then (if negative then "-" else "") ++ NilZero.string_of_uint (N.to_uint (Z.to_N n))
    else "" in
  match Prim2SF x with
  | S754_nan => "NaN"
  | S754_infinity negative => if negative then "-Infinity" else "Infinity"
  | S754_zero _ => "0"
  | S754_finite negative m e =>
      if (0 <=? e)%Z then decimal negative (Z.pos m * 2 ^ e)%Z
      else if (Z.pos m mod 2 ^ (- e) =? 0)%Z
           then decimal negative (Z.pos m / 2 ^ (- e))%Z
           else ""
  end.

(** An instance of the message of a ZodError for concrete runs: the
    messages of the issues, joined. It is not the text zod gives the error,
    which is the JSON of the issues; no statement below depends on it. *)
Definition issue_messages (issues : list ZodIssue) : string :=
  join "; " (List.map issue_message issues).

(** Modelled from the spec: [PlankaProjectSchema] is declared in
    src/common/types, which is not part of this module; the spec describes a
    Project as a record with at least an identifier (string) and a name
    (string), whose additional fields pass through. *)
Definition ProjectRecordSchema : ZodType :=
  z_object_passthrough [("id", z_string); ("name", z_string)].

(** A remote service that answers every request with the same body. *)
Definition answering (response : value)
    : string -> option RequestOptions -> settled value :=
  fun _ _ => Fulfilled response.

(** A remote service on which every request fails. *)
Definition failing (reason : thrown)
    : string -> option RequestOptions -> settled value :=
  fun _ _ => Rejected reason.

(** ** Schema definitions of the module *)

Definition CreateProjectSchema : ZodType :=
  z_object [("name", z_string)].

Definition GetProjectsSchema : ZodType :=
  z_object [("page", z_optional z_number); ("perPage", z_optional z_number)].

Definition GetProjectSchema : ZodType :=
  z_object [("id", z_string)].

Definition UpdateProjectSchema : ZodType :=
  z_object [("id", z_string); ("name", z_optional z_string)].

Definition DeleteProjectSchema : ZodType :=
  z_object [("id", z_string)].

(** [z.infer<typeof CreateProjectSchema>] *)
Module CreateProjectOptions.
Record t : Type := make { name : string }.
End CreateProjectOptions.

(** [z.infer<typeof UpdateProjectSchema>]; an optional key that is left out
    (or undefined) is [None]. *)
Module UpdateProjectOptions.
Record t : Type := make { id : string; name : option string }.
End UpdateProjectOptions.

(** Modelled from the spec: the method [plankaRequest] (src/common/utils,
    not part of this module) uses for a call that names none; the interface
    table of the spec gives GET for the single-project read, whose call
    passes the path alone. *)
Definition default_method : string := "GET".

(** The HTTP method a call results in. *)
Definition effective_method (c : call) : string :=
  match call_options c with
  | Some options =>
      match method options with
      | Some m => m
      | None => default_method
      end
  | None => default_method
  end.

(** The body a call hands over, if any. *)
Definition sent_body (c : call) : option value :=
  match call_options c with
  | Some options => body options
  | None => None
  end.

(** The message pattern of the error design: "Failed to <operation>
    project(s): ", the plural being that of the collection read. *)
Definition failure_prefix (operation : string) (plural : bool) : string :=
  "Failed to " ++ operation ++ " project" ++ (if plural then "s" else "") ++ ": ".

(** ** The operations *)

Section Projects.

(** The runtime's [Number.prototype.toString]. *)
Variable Number_toString : number -> string.

(** The message of the ZodError that carries the given issues. *)
Variable ZodError_message : list ZodIssue -> string.

(** [PlankaProjectSchema] of src/common/types. *)
Variable PlankaProjectSchema : ZodType.

(** The settled result of [plankaRequest(path, options)]. *)
Variable plankaRequest : string -> option RequestOptions -> settled value.

(** [await plankaRequest(path, options)] *)
Definition await_plankaRequest
    (path : string) (options : option RequestOptions) : async value :=
  ([mkCall path options], plankaRequest path options).

(** [schema.parse(data)]: the output, or a thrown ZodError. *)
Definition parse (schema : ZodType) (data : value) : async value :=
  match schema data with
  | OK output => ret output
  | INVALID issue more =>
      throw (ErrorInstance (ZodError_message (issue :: more)))
  end.

(** [error instanceof Error ? error.message : String(error)]: the string,
    or the TypeError that [String(error)] throws. *)
Definition message_of (error : thrown) : async string :=
  match error with
  | ErrorInstance message => ret message
  | NotAnError v =>
      match String_ Number_toString v with
      | Some text => ret text
      | None => throw (ErrorInstance cannot_convert)
      end
  end.

(** What a catch block of this module throws for a cause: the Error with
    the prefixed message, or the TypeError of the conversion. *)
Definition rethrown (prefix : string) (cause : thrown) : thrown :=
  match cause with
  | ErrorInstance message => ErrorInstance (prefix ++ message)
  | NotAnError v =>
      match String_ Number_toString v with
      | Some text => ErrorInstance (prefix ++ text)
      | None => ErrorInstance cannot_convert
      end
  end.

Definition ProjectsResponseSchema : ZodType :=
  z_object [("items", z_array PlankaProjectSchema);
            ("included", z_optional (z_record z_any))].

Definition ProjectResponseSchema : ZodType :=
  z_object [("item", PlankaProjectSchema);
            ("included", z_optional (z_record z_any))].

(** [getProjects(page = 1, perPage = 30)]; an argument that is left out is
    [None]. [perPage > 100] is the comparison [100 < perPage]. *)
Definition getProjects (page perPage : option number) : async value :=
  let page := match page with Some p => p | None => 1%float end in
  let perPage := match perPage with Some p => p | None => 30%float end in
  try_catch
    (let perPage := if (100 <? perPage)%float then 100%float else perPage in
     let queryParams := URLSearchParams_new in
     let queryParams :=
       URLSearchParams_append queryParams "page" (Number_toString page) in
     let queryParams :=
       URLSearchParams_append queryParams "per_page" (Number_toString perPage) in
     response <- await_plankaRequest
                   ("/api/projects?" ++ URLSearchParams_toString queryParams)
                   (Some (mkOptions (Some "GET") None)) ;;
     parsedResponse <- parse ProjectsResponseSchema response ;;
     ret parsedResponse)%async
    (fun error =>
       message <- message_of error ;;
       throw (ErrorInstance ("Failed to get projects: " ++ message)))%async.

Definition getProject (id : string) : async value :=
  try_catch
    (response <- await_plankaRequest ("/api/projects/" ++ id) None ;;
     parsedResponse <- parse ProjectResponseSchema response ;;
     ret (member parsedResponse "item"))%async
    (fun error =>
       message <- message_of error ;;
       throw (ErrorInstance ("Failed to get project: " ++ message)))%async.

Definition createProject (options : CreateProjectOptions.t) : async value :=
  try_catch
    (response <- await_plankaRequest "/api/projects"
                   (Some (mkOptions (Some "POST")
                            (Some (VObject
                               [("name",
                                 VString (CreateProjectOptions.name options))])))) ;;
     parsedResponse <- parse ProjectResponseSchema response ;;
     ret (member parsedResponse "item"))%async
    (fun error =>
       message <- message_of error ;;
       throw (ErrorInstance ("Failed to create project: " ++ message)))%async.

Definition updateProject (options : UpdateProjectOptions.t) : async value :=
  try_catch
    (let updateBody : properties_t := [] in
     let updateBody :=
       match UpdateProjectOptions.name options with
       | Some name => set updateBody "name" (VString name)
       | None => updateBody
       end in
     response <- await_plankaRequest
                   ("/api/projects/" ++ UpdateProjectOptions.id options)
                   (Some (mkOptions (Some "PATCH") (Some (VObject updateBody)))) ;;
     parsedResponse <- parse ProjectResponseSchema response ;;
     ret (member parsedResponse "item"))%async
    (fun error =>
       message <- message_of error ;;
       throw (ErrorInstance ("Failed to update project: " ++ message)))%async.

Definition deleteProject (id : string) : async value :=
  try_catch
    (_ <- await_plankaRequest ("/api/projects/" ++ id)
            (Some (mkOptions (Some "DELETE") None)) ;;
     ret (VObject [("success", VBool true)]))%async
    (fun error =>
       message <- message_of error ;;
       throw (ErrorInstance ("Failed to delete project: " ++ message)))%async.

(** The path of the collection read for the given effective values, as the
    interface table writes it: [?page=<n>&per_page=<m>]. *)
Definition list_path (page perPage : number) : string :=
  "/api/projects?page=" ++ urlencode (Number_toString page)
  ++ "&per_page=" ++ urlencode (Number_toString perPage).

(** The path of a single project, [/api/projects/{id}]. *)
Definition project_path (id : string) : string := "/api/projects/" ++ id.

(** The collection read for the given effective values. *)
Definition list_request (page perPage : number) : call :=
  mkCall (list_path page perPage) (Some (mkOptions (Some "GET") None)).

(** The options of the create call for a given name. *)
Definition create_options (name : string) : option RequestOptions :=
  Some (mkOptions (Some "POST") (Some (VObject [("name", VString name)]))).

(** The options of the update call: the body holds [name] when the caller
    supplied one and nothing otherwise. *)
Definition update_options (name : option string) : option RequestOptions :=
  Some (mkOptions (Some "PATCH")
          (Some (VObject match name with
                         | Some n => [("name", VString n)]
                         | None => []
                         end))).

(** The optional map of included entities conforms when it is left out
    or is an object, whatever the object holds. *)
Definition conforming_included (v : value) : Prop :=
  v = VUndefined \/ exists entries, v = VObject entries.

(** The operation made one request, which the remote service answered
    with [response]. *)
Definition answered (m : async value) (response : value) : Prop :=
  exists c, requests m = [c]
    /\ plankaRequest (call_path c) (call_options c) = Fulfilled response.

(** The operation made one request, on which [plankaRequest] raised
    [cause]. *)
Definition refused (m : async value) (cause : thrown) : Prop :=
  exists c, requests m = [c]
    /\ plankaRequest (call_path c) (call_options c) = Rejected cause.

(** The promise is rejected with an Error whose message is [prefix]
    followed by the message of the cause. *)
Definition reraised (prefix cause_message : string) (m : async value) : Prop :=
  outcome m = Rejected (ErrorInstance (prefix ++ cause_message)).

(** The error design for one operation. A request that fails with an
    Error is re-raised under [prefix] with the message of that Error; one
    that fails with a value that is no Error, with the text that
    [String] gives the value; a response that the schema of the operation
    (where it has one) refuses, with the message of the ZodError. And when
    the cause, if it is no Error, has such a text, a rejection has no other
    shape. *)
Definition uniform_errors
    (prefix : string) (schema : option ZodType) (m : async value) : Prop :=
  (forall message,
     refused m (ErrorInstance message) -> reraised prefix message m)
  /\ (forall v text,
        refused m (NotAnError v) ->
        ToString Number_toString v text ->
        reraised prefix text m)
  /\ (forall validate response issue more,
        schema = Some validate ->
        answered m response ->
        validate response = INVALID issue more ->
        reraised prefix (ZodError_message (issue :: more)) m)
  /\ (forall reason,
        outcome m = Rejected reason ->
        (forall v, refused m (NotAnError v) ->
           exists text, ToString Number_toString v text) ->
        exists cause_message, reason = ErrorInstance (prefix ++ cause_message)).

(** Validating the output of a schema again gives that output. *)
Definition idempotent (schema : ZodType) : Prop :=
  forall data output, schema data = OK output -> schema output = OK output.

(** A pagination value [GetProjectsSchema] takes: one that is left out, or
    a number other than NaN. *)
Definition pagination_value (v : value) : Prop :=
  v = VUndefined \/ exists n, v = VNumber n /\ PrimFloat.is_nan n = false.


(** The run of an operation of the common shape. *)
Definition common_run
    (prefix path : string) (options : option RequestOptions)
    (schema : ZodType) (project : value -> value) : async value :=
  ([mkCall path options],
   match plankaRequest path options with
   | Rejected cause => Rejected (rethrown prefix cause)
   | Fulfilled response =>
       match schema response with
       | OK output => Fulfilled (project output)
       | INVALID issue more =>
           Rejected (ErrorInstance (prefix ++ ZodError_message (issue :: more)))
       end
   end).

(** ** Facts about the runtime *)

(** Comparing in the other direction gives the opposite answer. *)
Lemma SFcompare_swap (x y : spec_float) (c : comparison) :
  SFcompare x y = Some c -> SFcompare y x = Some (CompOpp c).
Proof.
  destruct x as [sx | sx | | sx mx ex], y as [sy | sy | | sy my ey];
    simpl; try discriminate;
    try (intros H; injection H as <-;
         repeat match goal with b : bool |- _ => destruct b end;
         reflexivity).
  intros H; injection H as <-.
  rewrite (Z.compare_antisym ex ey).
  assert (Hm : PosDef.Pos.compare_cont Eq my mx
               = CompOpp (PosDef.Pos.compare_cont Eq mx my))
    by (symmetry; exact (Pos.compare_cont_antisym mx my Eq)).
  rewrite Hm.
  destruct sx, sy; try reflexivity;
    destruct (ex ?= ey)%Z; simpl; try reflexivity;
    try (rewrite CompOpp_involutive; reflexivity).
Qed.

(** A number that is at most [y] does not exceed [y]. *)
Lemma leb_not_gt (x y : number) :
  (x <=? y)%float = true -> (y <? x)%float = false.
Proof.
  rewrite leb_spec, ltb_spec. unfold SFleb, SFltb.
  destruct (SFcompare (Prim2SF x) (Prim2SF y)) as [c |] eqn:E.
  - rewrite (SFcompare_swap _ _ _ E). destruct c; simpl; congruence.
  - discriminate.
Qed.

(** A string of kept characters is its own url-encoding. *)
Lemma urlencode_kept (s : string) : all_kept s = true -> urlencode s = s.
Proof.
  induction s as [| c rest IH]; simpl; intros H.
  - reflexivity.
  - apply andb_true_iff in H as [Hc Hrest].
    rewrite Hc, (IH Hrest). reflexivity.
Qed.

(** The serialization of the two parameters of the collection read. *)
Lemma query_string (page perPage : string) :
  URLSearchParams_toString
    (URLSearchParams_append
       (URLSearchParams_append URLSearchParams_new "page" page)
       "per_page" perPage)
  = "page=" ++ urlencode page ++ "&per_page=" ++ urlencode perPage.
Proof. reflexivity. Qed.

(** ** Facts about the schemas *)

Lemma parse_entries_any (props : properties_t) :
  parse_entries z_any props = (without_proto props, []).
Proof.
  induction props as [| [k d] rest IH].
  - reflexivity.
  - cbn [parse_entries]. rewrite IH. unfold z_any, issues_of.
    cbn [without_proto List.filter fst app].
    destruct (String.eqb k "__proto__"); reflexivity.
Qed.

Lemma included_valid (v : value) :
  conforming_included v -> z_optional (z_record z_any) v = OK (merged v).
Proof.
  intros [-> | [entries ->]]; simpl.
  - reflexivity.
  - rewrite parse_entries_any. reflexivity.
Qed.

(** Merging keeps a value that is left out as it is, and no other. *)
Lemma merged_undefined (v : value) : is_undefined (merged v) = is_undefined v.
Proof. destruct v; reflexivity. Qed.

(** A conforming single-item response validates to an object whose
    [item] is the validated project. *)
Lemma ProjectResponseSchema_valid (props : properties_t) (item : value) :
  PlankaProjectSchema (get props "item") = OK item ->
  conforming_included (get props "included") ->
  exists output,
    ProjectResponseSchema (VObject props) = OK output
    /\ member output "item" = item.
Proof.
  intros Hitem Hincluded.
  unfold ProjectResponseSchema, z_object, parse_shape.
  rewrite Hitem, (included_valid _ Hincluded). simpl.
  destruct (negb (is_undefined (merged (get props "included")))
            || has_property "included" props);
    destruct (negb (is_undefined item) || has_property "item" props) eqn:E;
    eexists; (split; [reflexivity |]); simpl; try reflexivity.
  all: apply orb_false_iff in E as [E _];
    destruct item; simpl in E; try discriminate; reflexivity.
Qed.

(** A response that is not an object conforms to neither schema. *)
Lemma z_object_not_object (shape : list (string * ZodType)) (data : value) :
  (forall props, data <> VObject props) ->
  z_object shape data = INVALID (invalid_type "object" data) [].
Proof.
  intros H. destruct data; try reflexivity. exfalso. eapply H. reflexivity.
Qed.

(** A collection response without [items] does not conform. *)
Lemma ProjectsResponseSchema_items_required (props : properties_t) :
  lookup "items" props = None ->
  exists issue more, ProjectsResponseSchema (VObject props) = INVALID issue more.
Proof.
  intros H.
  unfold ProjectsResponseSchema, z_object, parse_shape, get. rewrite H.
  simpl. eexists. eexists. reflexivity.
Qed.

(** A single-item response whose [item] the project schema refuses does
    not conform; in particular one without [item], when the project
    schema refuses undefined. *)
Lemma ProjectResponseSchema_item_invalid
    (props : properties_t) (issue : ZodIssue) (more : list ZodIssue) :
  PlankaProjectSchema (get props "item") = INVALID issue more ->
  exists issue' more',
    ProjectResponseSchema (VObject props) = INVALID issue' more'.
Proof.
  intros H.
  unfold ProjectResponseSchema, z_object, parse_shape. rewrite H.
  destruct (z_optional (z_record z_any) (get props "included"));
    simpl; eexists; eexists; reflexivity.
Qed.

Lemma ProjectResponseSchema_item_required
    (props : properties_t) (issue : ZodIssue) (more : list ZodIssue) :
  lookup "item" props = None ->
  PlankaProjectSchema VUndefined = INVALID issue more ->
  exists issue' more',
    ProjectResponseSchema (VObject props) = INVALID issue' more'.
Proof.
  intros Hmissing H.
  apply (ProjectResponseSchema_item_invalid props issue more).
  unfold get. rewrite Hmissing. exact H.
Qed.

(** ** How the operations run *)

(** The common shape of the operations: one request, the validation of
    its response, a projection of the validated response, and the
    handler that re-raises under a prefix. *)
Lemma request_parse_run
    (prefix path : string) (options : option RequestOptions)
    (schema : ZodType) (project : value -> value) :
  try_catch
    (response <- await_plankaRequest path options ;;
     parsedResponse <- parse schema response ;;
     ret (project parsedResponse))%async
    (fun error =>
       message <- message_of error ;;
       throw (ErrorInstance (prefix ++ message)))%async
  = ([mkCall path options],
     match plankaRequest path options with
     | Rejected cause => Rejected (rethrown prefix cause)
     | Fulfilled response =>
         match schema response with
         | OK output => Fulfilled (project output)
         | INVALID issue more =>
             Rejected (ErrorInstance (prefix ++ ZodError_message (issue :: more)))
         end
     end).
Proof.
  unfold await_plankaRequest, parse, bind, try_catch, ret, throw.
  destruct (plankaRequest path options) as [response | cause].
  - destruct (schema response); reflexivity.
  - destruct cause as [message | v]; simpl.
    + reflexivity.
    + destruct (String_ Number_toString v); reflexivity.
Qed.

Lemma getProjects_run (page perPage : option number) :
  let n := match page with Some p => p | None => 1%float end in
  let given := match perPage with Some p => p | None => 30%float end in
  let m := if (100 <? given)%float then 100%float else given in
  getProjects page perPage
  = ([list_request n m],
     match plankaRequest (list_path n m) (Some (mkOptions (Some "GET") None)) with
     | Rejected cause =>
         Rejected (rethrown "Failed to get projects: " cause)
     | Fulfilled response =>
         match ProjectsResponseSchema response with
         | OK output => Fulfilled output
         | INVALID issue more =>
             Rejected (ErrorInstance
               ("Failed to get projects: " ++ ZodError_message (issue :: more)))
         end
     end).
Proof.
  intros n given m. unfold getProjects.
  rewrite query_string.
  exact (request_parse_run "Failed to get projects: " (list_path n m)
           (Some (mkOptions (Some "GET") None)) ProjectsResponseSchema
           (fun v => v)).
Qed.

Lemma getProject_run (id : string) :
  getProject id
  = ([mkCall (project_path id) None],
     match plankaRequest (project_path id) None with
     | Rejected cause =>
         Rejected (rethrown "Failed to get project: " cause)
     | Fulfilled response =>
         match ProjectResponseSchema response with
         | OK output => Fulfilled (member output "item")
         | INVALID issue more =>
             Rejected (ErrorInstance
               ("Failed to get project: " ++ ZodError_message (issue :: more)))
         end
     end).
Proof.
  exact (request_parse_run "Failed to get project: " (project_path id) None
           ProjectResponseSchema (fun v => member v "item")).
Qed.

Lemma createProject_run (options : CreateProjectOptions.t) :
  let name := CreateProjectOptions.name options in
  createProject options
  = ([mkCall "/api/projects" (create_options name)],
     match plankaRequest "/api/projects" (create_options name) with
     | Rejected cause =>
         Rejected (rethrown "Failed to create project: " cause)
     | Fulfilled response =>
         match ProjectResponseSchema response with
         | OK output => Fulfilled (member output "item")
         | INVALID issue more =>
             Rejected (ErrorInstance
               ("Failed to create project: " ++ ZodError_message (issue :: more)))
         end
     end).
Proof.
  exact (request_parse_run "Failed to create project: " "/api/projects"
           (create_options (CreateProjectOptions.name options))
           ProjectResponseSchema (fun v => member v "item")).
Qed.

Lemma updateProject_run (options : UpdateProjectOptions.t) :
  let path := project_path (UpdateProjectOptions.id options) in
  let request_options := update_options (UpdateProjectOptions.name options) in
  updateProject options
  = ([mkCall path request_options],
     match plankaRequest path request_options with
     | Rejected cause =>
         Rejected (rethrown "Failed to update project: " cause)
     | Fulfilled response =>
         match ProjectResponseSchema response with
         | OK output => Fulfilled (member output "item")
         | INVALID issue more =>
             Rejected (ErrorInstance
               ("Failed to update project: " ++ ZodError_message (issue :: more)))
         end
     end).
Proof.
  intros path request_options. unfold updateProject.
  replace (Some (mkOptions (Some "PATCH")
             (Some (VObject
                match UpdateProjectOptions.name options with
                | Some name => set [] "name" (VString name)
                | None => []
                end))))
    with request_options
    by (unfold request_options, update_options;
        destruct (UpdateProjectOptions.name options); reflexivity).
  exact (request_parse_run "Failed to update project: " path request_options
           ProjectResponseSchema (fun v => member v "item")).
Qed.

Lemma deleteProject_run (id : string) :
  let request_options := Some (mkOptions (Some "DELETE") None) in
  deleteProject id
  = ([mkCall (project_path id) request_options],
     match plankaRequest (project_path id) request_options with
     | Rejected cause =>
         Rejected (rethrown "Failed to delete project: " cause)
     | Fulfilled _ => Fulfilled (VObject [("success", VBool true)])
     end).
Proof.
  intros request_options.
  unfold deleteProject, await_plankaRequest, bind, try_catch, ret, throw.
  fold (project_path id). fold request_options.
  destruct (plankaRequest (project_path id) request_options) as [response | cause].
  - reflexivity.
  - destruct cause as [message | v]; simpl.
    + reflexivity.
    + destruct (String_ Number_toString v); reflexivity.
Qed.

(** For an operation that made the single request [c], being answered or
    refused is what [plankaRequest] settled that request with. *)
Lemma answered_single (c : call) (r : settled value) (response : value) :
  answered ([c], r) response ->
  plankaRequest (call_path c) (call_options c) = Fulfilled response.
Proof.
  intros [c' [Hc H]]. simpl in Hc. injection Hc as <-. exact H.
Qed.

Lemma refused_single (c : call) (r : settled value) (cause : thrown) :
  refused ([c], r) cause ->
  plankaRequest (call_path c) (call_options c) = Rejected cause.
Proof.
  intros [c' [Hc H]]. simpl in Hc. injection Hc as <-. exact H.
Qed.

(** A value that has a text in the sense of the standard is converted to
    that text. *)
Lemma ToString_String_ (v : value) (text : string) :
  ToString Number_toString v text -> String_ Number_toString v = Some text.
Proof.
  revert v text.
  apply (ToString_mutual Number_toString
           (fun v text => String_ Number_toString v = Some text)
           (fun elements parts =>
              all_some
                (List.map
                   (fun e =>
                      match e with
                      | VUndefined | VNull => Some ""
                      | _ => String_ Number_toString e
                      end)
                   elements)
              = Some parts)).
  - reflexivity.
  - reflexivity.
  - reflexivity.
  - reflexivity.
  - reflexivity.
  - reflexivity.
  - intros elements parts _ IH.
    change (option_map (join ",")
              (all_some
                 (List.map
                    (fun e =>
                       match e with
                       | VUndefined | VNull => Some ""
                       | _ => String_ Number_toString e
                       end)
                    elements))
            = Some (join "," parts)).
    rewrite IH. reflexivity.
  - intros props H.
    change (String_ Number_toString (VObject props))
      with (if has_property "toString" props
            then None else Some "[object Object]").
    unfold has_property. rewrite H. reflexivity.
  - reflexivity.
  - intros rest parts _ IH. cbn [List.map all_some]. rewrite IH. reflexivity.
  - intros rest parts _ IH. cbn [List.map all_some]. rewrite IH. reflexivity.
  - intros e part rest parts Hundefined Hnull _ IHe _ IH.
    cbn [List.map all_some].
    replace (match e with
             | VUndefined | VNull => Some ""
             | _ => String_ Number_toString e
             end)
      with (String_ Number_toString e)
      by (destruct e; congruence).
    rewrite IHe, IH. reflexivity.
Qed.

(** One request whose failure is handled by the catch block: the failure
    is re-raised under the prefix for an Error and for a value that has a
    text, and any other rejection comes from what follows the request. *)
Lemma request_failure_uniform
    (prefix path : string) (options : option RequestOptions)
    (continue : value -> settled value) (m : async value) :
  m = ([mkCall path options],
       match plankaRequest path options with
       | Rejected cause => Rejected (rethrown prefix cause)
       | Fulfilled response => continue response
       end) ->
  (forall message,
     refused m (ErrorInstance message) -> reraised prefix message m)
  /\ (forall v text,
        refused m (NotAnError v) ->
        ToString Number_toString v text ->
        reraised prefix text m)
  /\ (forall reason,
        outcome m = Rejected reason ->
        (forall v, refused m (NotAnError v) ->
           exists text, ToString Number_toString v text) ->
        (exists cause_message, reason = ErrorInstance (prefix ++ cause_message))
        \/ (exists response,
              plankaRequest path options = Fulfilled response
              /\ continue response = Rejected reason)).
Proof.
  intros ->. unfold reraised, outcome, snd.
  split; [| split].
  - intros message H. apply refused_single in H.
    unfold call_path, call_options in H. rewrite H. reflexivity.
  - intros v text H Htext. apply refused_single in H.
    unfold call_path, call_options in H. rewrite H.
    unfold rethrown. rewrite (ToString_String_ v text Htext). reflexivity.
  - intros reason Hreason Hconvertible.
    destruct (plankaRequest path options) as [response | cause] eqn:E.
    + right. exists response. split; [reflexivity | exact Hreason].
    + left. injection Hreason as <-.
      destruct cause as [message | v].
      * eexists. reflexivity.
      * destruct (Hconvertible v) as [text Htext].
        { exists (mkCall path options). split; [reflexivity | exact E]. }
        unfold rethrown. rewrite (ToString_String_ v text Htext).
        eexists. reflexivity.
Qed.

(** An operation of the common shape follows the error design. *)
Lemma uniform_errors_run
    (prefix path : string) (options : option RequestOptions)
    (schema : ZodType) (project : value -> value) (m : async value) :
  m = ([mkCall path options],
       match plankaRequest path options with
       | Rejected cause => Rejected (rethrown prefix cause)
       | Fulfilled response =>
           match schema response with
           | OK output => Fulfilled (project output)
           | INVALID issue more =>
               Rejected (ErrorInstance (prefix ++ ZodError_message (issue :: more)))
           end
       end) ->
  uniform_errors prefix (Some schema) m.
Proof.
  intros Hrun.
  destruct (request_failure_uniform prefix path options _ m Hrun)
    as [Herror [Hvalue Hshape]].
  split; [exact Herror |]. split; [exact Hvalue |]. split.
  - intros validate response issue more Hschema H Hinvalid.
    injection Hschema as <-. subst m.
    apply answered_single in H. unfold call_path, call_options in H.
    unfold reraised, outcome, snd. rewrite H, Hinvalid. reflexivity.
  - intros reason Hreason Hconvertible.
    destruct (Hshape reason Hreason Hconvertible)
      as [Hprefixed | [response [_ Hcontinue]]].
    + exact Hprefixed.
    + destruct (schema response) as [output | issue more].
      * discriminate.
      * injection Hcontinue as <-. eexists. reflexivity.
Qed.

(** A response that conforms to the single-item schema is an object whose
    [item] the project schema accepts, and the validated response holds
    the validated project as its [item]. *)
Lemma ProjectResponseSchema_inversion (response output : value) :
  ProjectResponseSchema response = OK output ->
  exists props item,
    response = VObject props
    /\ PlankaProjectSchema (get props "item") = OK item
    /\ member output "item" = item.
Proof.
  destruct response as [| | b | n | s | elements | props];
    try discriminate.
  unfold ProjectResponseSchema, z_object, parse_shape.
  destruct (PlankaProjectSchema (get props "item")) as [item | issue more] eqn:Hitem.
  - destruct (z_optional (z_record z_any) (get props "included"))
      as [included | issue more]; simpl.
    + intros H. exists props, item. split; [reflexivity |]. split; [exact Hitem |].
      destruct (negb (is_undefined included) || has_property "included" props);
        destruct (negb (is_undefined item) || has_property "item" props) eqn:E;
        injection H as <-; simpl; try reflexivity.
      all: apply orb_false_iff in E as [E _];
        destruct item; simpl in E; try discriminate; reflexivity.
    + destruct (negb (is_undefined item) || has_property "item" props);
        discriminate.
  - destruct (z_optional (z_record z_any) (get props "included"));
      simpl; discriminate.
Qed.

(** ** Properties of the operations *)

(** C1: the per-page value getProjects sends is 100 when the supplied
    perPage exceeds 100, the supplied value when it is at most 100, and 30
    when perPage is omitted; an omitted page is page 1; and for every
    input the per-page value sent does not exceed 100. *)
Theorem getProjects_per_page_sent :
  (forall page p, (100 <? p)%float = true ->
     requests (getProjects (Some page) (Some p)) = [list_request page 100%float])
  /\ (forall page p, (p <=? 100)%float = true ->
     requests (getProjects (Some page) (Some p)) = [list_request page p])
  /\ (forall page,
     requests (getProjects (Some page) None) = [list_request page 30%float])
  /\ (forall perPage,
     getProjects None perPage = getProjects (Some 1%float) perPage)
  /\ (forall page perPage, exists n m,
     requests (getProjects page perPage) = [list_request n m]
     /\ (100 <? m)%float = false).
Proof.
  split; [| split; [| split; [| split]]].
  - intros page p H. rewrite getProjects_run. simpl. rewrite H. reflexivity.
  - intros page p H. rewrite getProjects_run. simpl.
    rewrite (leb_not_gt _ _ H). reflexivity.
  - intros page. rewrite getProjects_run. reflexivity.
  - intros perPage. reflexivity.
  - intros page perPage. rewrite getProjects_run. simpl.
    set (given := match perPage with Some p => p | None => 30%float end).
    destruct (100 <? given)%float eqn:E.
    + eexists. exists 100%float. split; reflexivity.
    + eexists. exists given. split; [reflexivity | exact E].
Qed.

(** C2: when the response does not conform to the response schema,
    getProjects, getProject, createProject and updateProject are rejected
    with an error and return no value; a collection response without
    items does not conform, nor does a single-item response without item
    whenever the project schema refuses an absent project. *)
Theorem nonconforming_response_fails :
  (forall page perPage response issue more,
     answered (getProjects page perPage) response ->
     ProjectsResponseSchema response = INVALID issue more ->
     exists message,
       outcome (getProjects page perPage) = Rejected (ErrorInstance message))
  /\ (forall id response issue more,
     answered (getProject id) response ->
     ProjectResponseSchema response = INVALID issue more ->
     exists message, outcome (getProject id) = Rejected (ErrorInstance message))
  /\ (forall options response issue more,
     answered (createProject options) response ->
     ProjectResponseSchema response = INVALID issue more ->
     exists message,
       outcome (createProject options) = Rejected (ErrorInstance message))
  /\ (forall options response issue more,
     answered (updateProject options) response ->
     ProjectResponseSchema response = INVALID issue more ->
     exists message,
       outcome (updateProject options) = Rejected (ErrorInstance message))
  /\ (forall props, lookup "items" props = None ->
     exists issue more,
       ProjectsResponseSchema (VObject props) = INVALID issue more)
  /\ (forall props issue more, lookup "item" props = None ->
     PlankaProjectSchema VUndefined = INVALID issue more ->
     exists issue' more',
       ProjectResponseSchema (VObject props) = INVALID issue' more').
Proof.
  split; [| split; [| split; [| split; [| split]]]].
  - intros page perPage response issue more.
    rewrite getProjects_run. simpl. intros H Hinvalid.
    apply answered_single in H. simpl in H.
    unfold outcome. simpl. rewrite H, Hinvalid. eexists. reflexivity.
  - intros id response issue more.
    rewrite getProject_run. intros H Hinvalid.
    apply answered_single in H. simpl in H.
    unfold outcome. simpl. rewrite H, Hinvalid. eexists. reflexivity.
  - intros options response issue more.
    rewrite createProject_run. simpl. intros H Hinvalid.
    apply answered_single in H. simpl in H.
    unfold outcome. simpl. rewrite H, Hinvalid. eexists. reflexivity.
  - intros options response issue more.
    rewrite updateProject_run. simpl. intros H Hinvalid.
    apply answered_single in H. simpl in H.
    unfold outcome. simpl. rewrite H, Hinvalid. eexists. reflexivity.
  - exact ProjectsResponseSchema_items_required.
  - intros props issue more.
    exact (ProjectResponseSchema_item_required props issue more).
Qed.

(** C3: the PATCH body of updateProject holds exactly the optional keys
    the caller supplied: the empty object for [{id}], the object with the
    single key name for [{id, name}]; the id is in no body. *)
Theorem updateProject_body :
  (forall id,
     requests (updateProject (UpdateProjectOptions.make id None))
     = [mkCall ("/api/projects/" ++ id)
          (Some (mkOptions (Some "PATCH") (Some (VObject []))))])
  /\ (forall id name,
     requests (updateProject (UpdateProjectOptions.make id (Some name)))
     = [mkCall ("/api/projects/" ++ id)
          (Some (mkOptions (Some "PATCH")
                   (Some (VObject [("name", VString name)]))))])
  /\ (forall options, exists c props,
     requests (updateProject options) = [c]
     /\ sent_body c = Some (VObject props)
     /\ lookup "id" props = None
     /\ (forall key v, lookup key props = Some v ->
           key = "name"
           /\ UpdateProjectOptions.name options <> None
           /\ v <> VNull /\ v <> VUndefined)).
Proof.
  split; [| split].
  - intros id. rewrite updateProject_run. reflexivity.
  - intros id name. rewrite updateProject_run. reflexivity.
  - intros [id [name |]]; rewrite updateProject_run; cbv zeta.
    + eexists. exists [("name", VString name)].
      split; [reflexivity |]. split; [reflexivity |].
      split; [reflexivity |]. intros key v.
      change (lookup key [("name", VString name)])
        with (if String.eqb "name" key then Some (VString name) else None).
      destruct (String.eqb "name" key) eqn:E; [| discriminate].
      apply String.eqb_eq in E. intros H. injection H as <-.
      repeat split; try congruence. discriminate.
    + eexists. exists [].
      split; [reflexivity |]. split; [reflexivity |].
      split; [reflexivity |]. intros key v. discriminate.
Qed.

(** C4 (as amended): in each of the five operations a request that fails
    with an Error, or with a value that is no Error and that [String]
    converts, and a response that fails the validation are re-raised as
    one Error whose message is the message of the cause (the text of the
    value, the message of the ZodError) after the prefix
    "Failed to <operation> project(s): "; with such causes a rejection has
    no other shape, whatever went wrong. *)
Theorem operations_uniform_errors :
  (forall page perPage,
     uniform_errors (failure_prefix "get" true) (Some ProjectsResponseSchema)
       (getProjects page perPage))
  /\ (forall id,
     uniform_errors (failure_prefix "get" false) (Some ProjectResponseSchema)
       (getProject id))
  /\ (forall options,
     uniform_errors (failure_prefix "create" false) (Some ProjectResponseSchema)
       (createProject options))
  /\ (forall options,
     uniform_errors (failure_prefix "update" false) (Some ProjectResponseSchema)
       (updateProject options))
  /\ (forall id,
     uniform_errors (failure_prefix "delete" false) None (deleteProject id)).
Proof.
  split; [| split; [| split; [| split]]].
  - intros page perPage.
    exact (uniform_errors_run _ _ _ _ _ _ (getProjects_run page perPage)).
  - intros id.
    exact (uniform_errors_run _ _ _ _ _ _ (getProject_run id)).
  - intros options.
    exact (uniform_errors_run _ _ _ _ _ _ (createProject_run options)).
  - intros options.
    exact (uniform_errors_run _ _ _ _ _ _ (updateProject_run options)).
  - intros id.
    destruct (request_failure_uniform "Failed to delete project: "
                (project_path id) (Some (mkOptions (Some "DELETE") None))
                (fun _ => Fulfilled (VObject [("success", VBool true)]))
                (deleteProject id) (deleteProject_run id))
      as [Herror [Hvalue Hshape]].
    split; [exact Herror |]. split; [exact Hvalue |]. split.
    + intros validate response issue more Hschema. discriminate.
    + intros reason Hreason Hconvertible.
      destruct (Hshape reason Hreason Hconvertible)
        as [Hprefixed | [response [_ Hcontinue]]].
      * exact Hprefixed.
      * discriminate.
Qed.

(** C5: whenever the request of deleteProject does not raise, the result
    is the object with the single property success set to true, whatever
    the remote service answered. *)
Theorem deleteProject_success (id : string) (response : value) :
  answered (deleteProject id) response ->
  outcome (deleteProject id) = Fulfilled (VObject [("success", VBool true)]).
Proof.
  rewrite deleteProject_run. cbv zeta. intros H.
  apply answered_single in H.
  change (plankaRequest (project_path id)
            (Some (mkOptions (Some "DELETE") None)) = Fulfilled response) in H.
  unfold outcome, snd. rewrite H. reflexivity.
Qed.

(** C6: on a response that conforms to the single-item schema, getProject
    returns the validated project found under item and nothing else: the
    result is what the project schema makes of the item of the response,
    whatever included holds. *)
Theorem getProject_returns_item (id : string) (response output : value) :
  answered (getProject id) response ->
  ProjectResponseSchema response = OK output ->
  exists props item,
    response = VObject props
    /\ PlankaProjectSchema (get props "item") = OK item
    /\ outcome (getProject id) = Fulfilled item.
Proof.
  rewrite getProject_run. intros H Hvalid.
  apply answered_single in H.
  change (plankaRequest (project_path id) None = Fulfilled response) in H.
  destruct (ProjectResponseSchema_inversion response output Hvalid)
    as [props [item [Hresponse [Hitem Hmember]]]].
  exists props, item. split; [exact Hresponse |]. split; [exact Hitem |].
  unfold outcome, snd. rewrite H, Hvalid, Hmember. reflexivity.
Qed.

(** C7 (as amended): createProject does not check that name is non-empty;
    for every string name, the empty string included, it makes the POST
    to /api/projects with the body holding that name, and
    CreateProjectSchema accepts every string as name. *)
Theorem createProject_posts_any_name (name : string) :
  requests (createProject (CreateProjectOptions.make name))
  = [mkCall "/api/projects"
       (Some (mkOptions (Some "POST") (Some (VObject [("name", VString name)]))))]
  /\ CreateProjectSchema (VObject [("name", VString name)])
     = OK (VObject [("name", VString name)]).
Proof.
  split.
  - rewrite createProject_run. reflexivity.
  - reflexivity.
Qed.

(** C8 (as amended): getProject does not check that id is non-empty; for
    every string id, the empty string included, it makes the request to
    /api/projects/ followed by the id, and GetProjectSchema accepts every
    string as id. *)
Theorem getProject_requests_any_id (id : string) :
  requests (getProject id) = [mkCall ("/api/projects/" ++ id) None]
  /\ GetProjectSchema (VObject [("id", VString id)])
     = OK (VObject [("id", VString id)]).
Proof.
  split.
  - rewrite getProject_run. reflexivity.
  - reflexivity.
Qed.

(** C9: each operation makes one request, with the method and path of the
    interface table: the collection read is a GET of /api/projects with
    the query page first and per_page second, the single read a GET of
    /api/projects/{id}, create a POST to /api/projects, update a PATCH
    and delete a DELETE to /api/projects/{id}. The two query values are
    serialized form-urlencoded, which leaves a rendering made of digits,
    letters, [-] and [.] as it is. *)
Theorem operations_method_and_path :
  (forall page perPage, exists c n m,
     requests (getProjects page perPage) = [c]
     /\ n = match page with Some p => p | None => 1%float end
     /\ m = (let given := match perPage with Some p => p | None => 30%float end in
             if (100 <? given)%float then 100%float else given)
     /\ effective_method c = "GET"
     /\ call_path c
        = "/api/projects?page=" ++ urlencode (Number_toString n)
          ++ "&per_page=" ++ urlencode (Number_toString m)
     /\ (all_kept (Number_toString n) = true ->
         all_kept (Number_toString m) = true ->
         call_path c
         = "/api/projects?page=" ++ Number_toString n
           ++ "&per_page=" ++ Number_toString m))
  /\ (forall id, exists c,
     requests (getProject id) = [c]
     /\ effective_method c = "GET"
     /\ call_path c = "/api/projects/" ++ id)
  /\ (forall options, exists c,
     requests (createProject options) = [c]
     /\ effective_method c = "POST"
     /\ call_path c = "/api/projects")
  /\ (forall options, exists c,
     requests (updateProject options) = [c]
     /\ effective_method c = "PATCH"
     /\ call_path c = "/api/projects/" ++ UpdateProjectOptions.id options)
  /\ (forall id, exists c,
     requests (deleteProject id) = [c]
     /\ effective_method c = "DELETE"
     /\ call_path c = "/api/projects/" ++ id).
Proof.
  split; [| split; [| split; [| split]]].
  - intros page perPage. rewrite getProjects_run. cbv zeta.
    eexists. eexists. eexists.
    split; [reflexivity |]. split; [reflexivity |]. split; [reflexivity |].
    split; [reflexivity |]. split; [reflexivity |].
    intros Hn Hm. unfold list_request, call_path, list_path.
    rewrite (urlencode_kept _ Hn), (urlencode_kept _ Hm). reflexivity.
  - intros id. rewrite getProject_run. eexists. repeat split.
  - intros options. rewrite createProject_run. eexists. repeat split.
  - intros options. rewrite updateProject_run. eexists. repeat split.
  - intros id. rewrite deleteProject_run. eexists. repeat split.
Qed.

(** C10: getProjects enforces no lower bound on its pagination values:
    every page value goes into the query as it is, and so does every
    perPage value that does not exceed 100, zero and negative numbers
    included; GetProjectsSchema accepts such values too. Only the upper
    bound of 100 on perPage is enforced. *)
Theorem getProjects_no_lower_bound :
  (forall page p, (100 <? p)%float = false ->
     requests (getProjects (Some page) (Some p)) = [list_request page p])
  /\ (forall page p, (p <=? 100)%float = true ->
     requests (getProjects (Some page) (Some p)) = [list_request page p])
  /\ requests (getProjects (Some 0%float) (Some 0%float))
     = [list_request 0%float 0%float]
  /\ requests (getProjects (Some (-3)%float) (Some (-7)%float))
     = [list_request (-3)%float (-7)%float]
  /\ GetProjectsSchema
       (VObject [("page", VNumber (-3)%float); ("perPage", VNumber (-7)%float)])
     = OK (VObject [("page", VNumber (-3)%float); ("perPage", VNumber (-7)%float)])
  /\ (forall page p,
     requests (getProjects (Some page) (Some p)) <> [list_request page p] ->
     (100 <? p)%float = true).
Proof.
  assert (Hkept : forall page p, (100 <? p)%float = false ->
            requests (getProjects (Some page) (Some p)) = [list_request page p]).
  { intros page p H. rewrite getProjects_run. simpl. rewrite H. reflexivity. }
  split; [exact Hkept |]. split; [| split; [| split; [| split]]].
  - intros page p H. apply Hkept. apply leb_not_gt. exact H.
  - apply Hkept. reflexivity.
  - apply Hkept. reflexivity.
  - reflexivity.
  - intros page p H. destruct (100 <? p)%float eqn:E; [reflexivity |].
    exfalso. apply H. apply Hkept. exact E.
Qed.

(** X1: createProject and updateProject return the validated project of a
    conforming response, as the single read does. *)
Theorem create_update_return_item (response output : value) :
  ProjectResponseSchema response = OK output ->
  exists props item,
    response = VObject props
    /\ PlankaProjectSchema (get props "item") = OK item
    /\ (forall options, answered (createProject options) response ->
          outcome (createProject options) = Fulfilled item)
    /\ (forall options, answered (updateProject options) response ->
          outcome (updateProject options) = Fulfilled item).
Proof.
  intros Hvalid.
  destruct (ProjectResponseSchema_inversion response output Hvalid)
    as [props [item [Hresponse [Hitem Hmember]]]].
  exists props, item. split; [exact Hresponse |]. split; [exact Hitem |].
  split; intros options.
  - rewrite createProject_run. cbv zeta. intros H.
    apply answered_single in H.
    change (plankaRequest "/api/projects"
              (create_options (CreateProjectOptions.name options))
            = Fulfilled response) in H.
    unfold outcome, snd. rewrite H, Hvalid, Hmember. reflexivity.
  - rewrite updateProject_run. cbv zeta. intros H.
    apply answered_single in H.
    change (plankaRequest (project_path (UpdateProjectOptions.id options))
              (update_options (UpdateProjectOptions.name options))
            = Fulfilled response) in H.
    unfold outcome, snd. rewrite H, Hvalid, Hmember. reflexivity.
Qed.

(** One step of [lookup]. *)
Lemma lookup_cons (key k : string) (v : value) (rest : properties_t) :
  lookup key ((k, v) :: rest)
  = if String.eqb k key then Some v else lookup key rest.
Proof. reflexivity. Qed.

(** X2: getProjects returns the validated response as a whole, an object
    with no property besides items and included. *)
Theorem getProjects_returns_validated
    (page perPage : option number) (response output : value) :
  answered (getProjects page perPage) response ->
  ProjectsResponseSchema response = OK output ->
  outcome (getProjects page perPage) = Fulfilled output
  /\ exists props,
       output = VObject props
       /\ forall key v, lookup key props = Some v ->
            key = "items" \/ key = "included".
Proof.
  rewrite getProjects_run. cbv zeta. intros H Hvalid. split.
  - apply answered_single in H.
    unfold list_request, call_path, call_options in H.
    unfold outcome, snd. rewrite H, Hvalid. reflexivity.
  - clear H. destruct response as [| | b | n | s | elements | props];
      try discriminate.
    unfold ProjectsResponseSchema, z_object, parse_shape in Hvalid.
    destruct (z_array PlankaProjectSchema (get props "items"))
      as [items | issue more];
      destruct (z_optional (z_record z_any) (get props "included"))
        as [included | issue' more'];
      simpl in Hvalid;
      repeat match type of Hvalid with
             | context [if ?b then _ else _] => destruct b
             end;
      try discriminate;
      injection Hvalid as <-; eexists; (split; [reflexivity |]);
      intros key v; repeat rewrite lookup_cons;
      repeat match goal with
             | |- context [String.eqb ?k key] =>
                 let E := fresh "E" in
                 destruct (String.eqb k key) eqn:E;
                 [apply String.eqb_eq in E; subst key; intros _; auto |]
             end;
      discriminate.
Qed.

(** ** Further facts about the runtime and the schemas *)

(** A number that is not NaN has a specification other than NaN. *)
Lemma is_nan_false (x : number) :
  PrimFloat.is_nan x = false -> Prim2SF x <> S754_nan.
Proof.
  unfold PrimFloat.is_nan. rewrite FloatAxioms.eqb_spec. intros H E.
  rewrite E in H. discriminate.
Qed.

(** Two numbers of which neither is NaN compare. *)
Lemma SFcompare_defined (x y : spec_float) :
  x <> S754_nan -> y <> S754_nan -> exists c, SFcompare x y = Some c.
Proof.
  intros Hx Hy. destruct x, y; simpl; try congruence; eexists; reflexivity.
Qed.

(** Among numbers other than NaN, not exceeding is being at most. *)
Lemma not_gt_leb (x y : number) :
  PrimFloat.is_nan x = false -> PrimFloat.is_nan y = false ->
  (y <? x)%float = false -> (x <=? y)%float = true.
Proof.
  intros Hx Hy. apply is_nan_false in Hx. apply is_nan_false in Hy.
  rewrite leb_spec, ltb_spec. unfold SFleb, SFltb.
  destruct (SFcompare_defined _ _ Hy Hx) as [c E].
  rewrite E, (SFcompare_swap _ _ _ E).
  destruct c; simpl; congruence.
Qed.

(** A parse result that contributes no issue is a valid one. *)
Lemma issues_of_nil (p : path_element) (r : ParseReturn) :
  issues_of p r = [] -> exists output, r = OK output.
Proof.
  destruct r as [output | issue more]; simpl.
  - intros _. exists output. reflexivity.
  - discriminate.
Qed.

(** Elements parsed without issue: the outputs are, one for one and in
    order, the validated elements. *)
Lemma parse_elements_valid (element : ZodType) (data : list value) :
  forall i outputs,
    parse_elements element i data = (outputs, []) ->
    Forall2 (fun d o => element d = OK o) data outputs.
Proof.
  induction data as [| d rest IH]; intros i outputs; simpl.
  - intros H. injection H as <-. constructor.
  - destruct (parse_elements element (S i) rest) as [outputs' issues'] eqn:E.
    intros H. injection H as Houtputs Hissues.
    apply app_eq_nil in Hissues as [Hd Hrest]. subst issues'.
    destruct (issues_of_nil _ _ Hd) as [o Ho]. rewrite Ho in Houtputs.
    subst outputs. constructor; [exact Ho |]. exact (IH (S i) outputs' E).
Qed.

(** One element the schema refuses leaves an issue. *)
Lemma parse_elements_invalid
    (element : ZodType) (data : list value) (d : value)
    (issue : ZodIssue) (more : list ZodIssue) :
  In d data -> element d = INVALID issue more ->
  forall i, snd (parse_elements element i data) <> [].
Proof.
  intros Hin Hinvalid.
  induction data as [| d' rest IH]; intros i; simpl.
  - destruct Hin.
  - destruct (parse_elements element (S i) rest) as [outputs' issues'] eqn:E.
    simpl. destruct Hin as [-> | Hin].
    + rewrite Hinvalid. simpl. discriminate.
    + intros H. apply app_eq_nil in H as [_ H].
      apply (IH Hin (S i)). rewrite E. exact H.
Qed.

(** Outputs that the schema takes as they are parse to themselves. *)
Lemma parse_elements_fixed (element : ZodType) (outputs : list value) :
  Forall (fun o => element o = OK o) outputs ->
  forall i, parse_elements element i outputs = (outputs, []).
Proof.
  induction 1 as [| o rest Ho _ IH]; intros i; simpl.
  - reflexivity.
  - rewrite (IH (S i)), Ho. reflexivity.
Qed.

(** What [z.array] takes is an array, and its output is the array of the
    validated elements. *)
Lemma z_array_inversion (element : ZodType) (data output : value) :
  z_array element data = OK output ->
  exists elements outputs,
    data = VArray elements
    /\ output = VArray outputs
    /\ Forall2 (fun d o => element d = OK o) elements outputs.
Proof.
  destruct data as [| | b | n | s | elements | props]; try discriminate.
  unfold z_array.
  destruct (parse_elements element 0 elements) as [outputs issues] eqn:E.
  destruct issues as [| issue more]; [| discriminate].
  intros H. injection H as <-.
  exists elements, outputs. split; [reflexivity |]. split; [reflexivity |].
  exact (parse_elements_valid element elements 0 outputs E).
Qed.

(** The map of included entities is taken as it is but for an own
    [__proto__], when it conforms. *)
Lemma included_inversion (v output : value) :
  z_optional (z_record z_any) v = OK output ->
  output = merged v /\ conforming_included v.
Proof.
  destruct v as [| | b | n | s | elements | props]; try discriminate; simpl.
  - intros H. injection H as <-. split; [reflexivity | left; reflexivity].
  - rewrite parse_entries_any. intros H. injection H as <-.
    split; [reflexivity | right; exists props; reflexivity].
Qed.

(** A response that conforms to the collection schema is an object whose
    [items] is an array of projects the project schema accepts and whose
    [included] conforms; the validated response holds the validated
    projects, and [included], merged, when the response has it. *)
Lemma ProjectsResponseSchema_inversion (response output : value) :
  ProjectsResponseSchema response = OK output ->
  exists props elements outputs,
    response = VObject props
    /\ get props "items" = VArray elements
    /\ Forall2 (fun d o => PlankaProjectSchema d = OK o) elements outputs
    /\ conforming_included (get props "included")
    /\ output
       = VObject (("items", VArray outputs)
                  :: if negb (is_undefined (get props "included"))
                        || has_property "included" props
                     then [("included", merged (get props "included"))]
                     else []).
Proof.
  destruct response as [| | b | n | s | elements | props]; try discriminate.
  unfold ProjectsResponseSchema, z_object, parse_shape.
  destruct (z_array PlankaProjectSchema (get props "items"))
    as [items | issue more] eqn:Hitems.
  - destruct (z_array_inversion _ _ _ Hitems)
      as [elements [outputs [Hdata [-> Hall]]]].
    destruct (z_optional (z_record z_any) (get props "included"))
      as [included | issue more] eqn:Hincluded.
    + destruct (included_inversion _ _ Hincluded) as [-> Hconforming].
      simpl. rewrite merged_undefined. intros H. injection H as <-.
      exists props, elements, outputs. repeat split; assumption.
    + simpl. discriminate.
  - destruct (z_optional (z_record z_any) (get props "included"));
      simpl; discriminate.
Qed.

(** In a response that conforms to the single-item schema, [included]
    conforms. *)
Lemma ProjectResponseSchema_included (props : properties_t) (output : value) :
  ProjectResponseSchema (VObject props) = OK output ->
  conforming_included (get props "included").
Proof.
  unfold ProjectResponseSchema, z_object, parse_shape.
  destruct (z_optional (z_record z_any) (get props "included"))
    as [included | issue more] eqn:Hincluded.
  - intros _. exact (proj2 (included_inversion _ _ Hincluded)).
  - destruct (PlankaProjectSchema (get props "item")) as [item | issue' more'];
      simpl; [destruct (negb (is_undefined item) || has_property "item" props) |];
      discriminate.
Qed.

(** A value for [included] that is neither left out nor an object is
    refused. *)
Lemma included_refused (v : value) :
  ~ conforming_included v ->
  exists issue more, z_optional (z_record z_any) v = INVALID issue more.
Proof.
  intros H.
  destruct (z_optional (z_record z_any) v) as [output | issue more] eqn:E.
  - exfalso. apply H. exact (proj2 (included_inversion _ _ E)).
  - exists issue, more. reflexivity.
Qed.

(** Elements that all validate parse without issue, to their outputs. *)
Lemma parse_elements_of_Forall2
    (element : ZodType) (data outputs : list value) :
  Forall2 (fun d o => element d = OK o) data outputs ->
  forall i, parse_elements element i data = (outputs, []).
Proof.
  induction 1 as [| d o rest outputs' Ho _ IH]; intros i; simpl.
  - reflexivity.
  - rewrite (IH (S i)), Ho. reflexivity.
Qed.

(** The converse of the inversion: such a response conforms. *)
Lemma ProjectsResponseSchema_valid
    (props : properties_t) (elements outputs : list value) :
  get props "items" = VArray elements ->
  Forall2 (fun d o => PlankaProjectSchema d = OK o) elements outputs ->
  conforming_included (get props "included") ->
  ProjectsResponseSchema (VObject props)
  = OK (VObject (("items", VArray outputs)
                 :: if negb (is_undefined (get props "included"))
                       || has_property "included" props
                    then [("included", merged (get props "included"))]
                    else [])).
Proof.
  intros Hitems Hall Hincluded.
  unfold ProjectsResponseSchema, z_object, parse_shape.
  rewrite Hitems, (included_valid _ Hincluded).
  unfold z_array. rewrite (parse_elements_of_Forall2 _ _ _ Hall 0).
  simpl. rewrite merged_undefined. reflexivity.
Qed.

(** For an operation of the common shape: what being answered, being
    fulfilled and being rejected on a response come to. *)
Lemma run_answered
    (prefix path : string) (options : option RequestOptions)
    (schema : ZodType) (project : value -> value) (response : value) :
  answered (common_run prefix path options schema project) response
  <-> plankaRequest path options = Fulfilled response.
Proof.
  unfold common_run. split.
  - intros H. exact (answered_single _ _ _ H).
  - intros H. exists (mkCall path options). split; [reflexivity | exact H].
Qed.

Lemma run_fulfilled
    (prefix path : string) (options : option RequestOptions)
    (schema : ZodType) (project : value -> value) (v : value) :
  outcome (common_run prefix path options schema project) = Fulfilled v <->
  exists response output,
    answered (common_run prefix path options schema project) response
    /\ schema response = OK output /\ v = project output.
Proof.
  split.
  - intros H. unfold common_run, outcome, snd in H.
    destruct (plankaRequest path options) as [response | cause] eqn:E;
      [| discriminate].
    destruct (schema response) as [output | issue more] eqn:Hschema;
      [| discriminate].
    injection H as <-. exists response, output.
    split; [apply run_answered; exact E |]. split; [exact Hschema | reflexivity].
  - intros [response [output [Hanswered [Hschema ->]]]].
    apply run_answered in Hanswered.
    unfold common_run, outcome, snd. rewrite Hanswered, Hschema. reflexivity.
Qed.

Lemma run_rejected
    (prefix path : string) (options : option RequestOptions)
    (schema : ZodType) (project : value -> value)
    (response : value) (issue : ZodIssue) (more : list ZodIssue) :
  answered (common_run prefix path options schema project) response ->
  schema response = INVALID issue more ->
  outcome (common_run prefix path options schema project)
  = Rejected (ErrorInstance (prefix ++ ZodError_message (issue :: more))).
Proof.
  intros Hanswered Hschema. apply run_answered in Hanswered.
  unfold common_run, outcome, snd. rewrite Hanswered, Hschema. reflexivity.
Qed.

(** An operation that returns the item of a single-item response is
    fulfilled with a value exactly when the answer is an object whose item
    validates to that value and whose included conforms. *)
Lemma single_item_fulfilled
    (prefix path : string) (options : option RequestOptions)
    (m : async value) (v : value) :
  m = common_run prefix path options ProjectResponseSchema
        (fun output => member output "item") ->
  outcome m = Fulfilled v <->
  exists props,
    answered m (VObject props)
    /\ PlankaProjectSchema (get props "item") = OK v
    /\ conforming_included (get props "included").
Proof.
  intros ->. rewrite run_fulfilled. split.
  - intros [response [output [Hanswered [Hschema ->]]]].
    destruct (ProjectResponseSchema_inversion _ _ Hschema)
      as [props [item [-> [Hitem Hmember]]]].
    exists props. split; [exact Hanswered |]. rewrite Hmember.
    split; [exact Hitem |].
    exact (ProjectResponseSchema_included props output Hschema).
  - intros [props [Hanswered [Hitem Hincluded]]].
    destruct (ProjectResponseSchema_valid props v Hitem Hincluded)
      as [output [Hschema Hmember]].
    exists (VObject props), output.
    split; [exact Hanswered |]. split; [exact Hschema |].
    symmetry. exact Hmember.
Qed.

(** X3: getProject, createProject and updateProject are fulfilled with a
    value exactly when the remote service answered with an object whose
    item the project schema validates to that value and whose included is
    left out or an object; deleteProject is fulfilled exactly when its
    request was answered, and then with the success object. A fulfilled
    result is never unvalidated data. *)
Theorem fulfilled_iff_conforming :
  (forall id v,
     outcome (getProject id) = Fulfilled v <->
     exists props,
       answered (getProject id) (VObject props)
       /\ PlankaProjectSchema (get props "item") = OK v
       /\ conforming_included (get props "included"))
  /\ (forall options v,
     outcome (createProject options) = Fulfilled v <->
     exists props,
       answered (createProject options) (VObject props)
       /\ PlankaProjectSchema (get props "item") = OK v
       /\ conforming_included (get props "included"))
  /\ (forall options v,
     outcome (updateProject options) = Fulfilled v <->
     exists props,
       answered (updateProject options) (VObject props)
       /\ PlankaProjectSchema (get props "item") = OK v
       /\ conforming_included (get props "included"))
  /\ (forall id v,
     outcome (deleteProject id) = Fulfilled v <->
     (exists response, answered (deleteProject id) response)
     /\ v = VObject [("success", VBool true)]).
Proof.
  split; [| split; [| split]].
  - intros id v.
    exact (single_item_fulfilled _ _ _ _ v (getProject_run id)).
  - intros options v.
    exact (single_item_fulfilled _ _ _ _ v (createProject_run options)).
  - intros options v.
    exact (single_item_fulfilled _ _ _ _ v (updateProject_run options)).
  - intros id v. rewrite deleteProject_run. cbv zeta.
    unfold outcome, snd, answered, requests, fst.
    destruct (plankaRequest (project_path id)
                (Some (mkOptions (Some "DELETE") None)))
      as [response | cause] eqn:E.
    + split.
      * intros H. injection H as <-. split; [| reflexivity].
        exists response, (mkCall (project_path id)
                            (Some (mkOptions (Some "DELETE") None))).
        split; [reflexivity | exact E].
      * intros [_ ->]. reflexivity.
    + split; [discriminate |].
      intros [[response [c [Hc H]]] _]. injection Hc as <-.
      simpl in H. rewrite E in H. discriminate.
Qed.

(** X4: getProjects is fulfilled with a value exactly when the remote
    service answered with an object whose items is an array of which the
    project schema validates every element and whose included is left out
    or an object; the value then holds, under items, the validated
    elements one for one and in order, and under included the entries the
    response has there, but for an own [__proto__] entry, which the merge
    of the validated entries drops. *)
Theorem getProjects_fulfilled_iff (page perPage : option number) (v : value) :
  outcome (getProjects page perPage) = Fulfilled v <->
  exists props elements outputs,
    answered (getProjects page perPage) (VObject props)
    /\ get props "items" = VArray elements
    /\ Forall2 (fun d o => PlankaProjectSchema d = OK o) elements outputs
    /\ conforming_included (get props "included")
    /\ v = VObject (("items", VArray outputs)
                    :: if negb (is_undefined (get props "included"))
                          || has_property "included" props
                       then [("included", merged (get props "included"))]
                       else []).
Proof.
  rewrite (getProjects_run page perPage). cbv zeta.
  match goal with |- outcome ?m = _ <-> _ =>
    change m with
      (common_run "Failed to get projects: "
         (list_path
            match page with Some p => p | None => 1%float end
            (let given := match perPage with Some p => p | None => 30%float end in
             if (100 <? given)%float then 100%float else given))
         (Some (mkOptions (Some "GET") None))
         ProjectsResponseSchema (fun output => output))
  end.
  rewrite run_fulfilled. split.
  - intros [response [output [Hanswered [Hschema ->]]]].
    destruct (ProjectsResponseSchema_inversion _ _ Hschema)
      as [props [elements [outputs [-> [Hitems [Hall [Hincluded ->]]]]]]].
    exists props, elements, outputs. repeat split; assumption.
  - intros [props [elements [outputs [Hanswered [Hitems [Hall [Hincluded ->]]]]]]].
    exists (VObject props). eexists.
    split; [exact Hanswered |]. split; [| reflexivity].
    exact (ProjectsResponseSchema_valid props elements outputs
             Hitems Hall Hincluded).
Qed.

(** The five operations as runs of the common shape. *)
Lemma getProjects_common (page perPage : option number) :
  getProjects page perPage
  = common_run "Failed to get projects: "
      (list_path
         match page with Some p => p | None => 1%float end
         (let given := match perPage with Some p => p | None => 30%float end in
          if (100 <? given)%float then 100%float else given))
      (Some (mkOptions (Some "GET") None))
      ProjectsResponseSchema (fun output => output).
Proof. exact (getProjects_run page perPage). Qed.

Lemma getProject_common (id : string) :
  getProject id
  = common_run "Failed to get project: " (project_path id) None
      ProjectResponseSchema (fun output => member output "item").
Proof. exact (getProject_run id). Qed.

Lemma createProject_common (options : CreateProjectOptions.t) :
  createProject options
  = common_run "Failed to create project: " "/api/projects"
      (create_options (CreateProjectOptions.name options))
      ProjectResponseSchema (fun output => member output "item").
Proof. exact (createProject_run options). Qed.

Lemma updateProject_common (options : UpdateProjectOptions.t) :
  updateProject options
  = common_run "Failed to update project: "
      (project_path (UpdateProjectOptions.id options))
      (update_options (UpdateProjectOptions.name options))
      ProjectResponseSchema (fun output => member output "item").
Proof. exact (updateProject_run options). Qed.

(** A collection response with an element the project schema refuses does
    not conform. *)
Lemma ProjectsResponseSchema_element_invalid
    (props : properties_t) (elements : list value) (d : value)
    (issue : ZodIssue) (more : list ZodIssue) :
  get props "items" = VArray elements ->
  In d elements ->
  PlankaProjectSchema d = INVALID issue more ->
  exists issue' more',
    ProjectsResponseSchema (VObject props) = INVALID issue' more'.
Proof.
  intros Hitems Hin Hinvalid.
  unfold ProjectsResponseSchema, z_object, parse_shape.
  rewrite Hitems. unfold z_array.
  pose proof (parse_elements_invalid PlankaProjectSchema elements d issue more
                Hin Hinvalid 0) as Hissues.
  destruct (parse_elements PlankaProjectSchema 0 elements) as [outputs issues].
  simpl in Hissues. destruct issues as [| issue0 more0]; [congruence |].
  destruct (z_optional (z_record z_any) (get props "included"));
    simpl; eexists; eexists; reflexivity.
Qed.

(** A response whose [included] does not conform conforms to neither
    response schema. *)
Lemma response_included_invalid (props : properties_t) :
  ~ conforming_included (get props "included") ->
  (exists issue more, ProjectsResponseSchema (VObject props) = INVALID issue more)
  /\ (exists issue more, ProjectResponseSchema (VObject props) = INVALID issue more).
Proof.
  intros H. destruct (included_refused _ H) as [issue [more E]]. split.
  - unfold ProjectsResponseSchema, z_object, parse_shape. rewrite E.
    destruct (z_array PlankaProjectSchema (get props "items"));
      simpl; eexists; eexists; reflexivity.
  - unfold ProjectResponseSchema, z_object, parse_shape. rewrite E.
    destruct (PlankaProjectSchema (get props "item"));
      simpl; eexists; eexists; reflexivity.
Qed.

(** X5: getProjects returns no partial list: when one element of items is
    refused by the project schema, the operation is rejected under its
    prefix, however many other elements are valid. *)
Theorem getProjects_no_partial_list
    (page perPage : option number) (props : properties_t)
    (elements : list value) (d : value)
    (issue : ZodIssue) (more : list ZodIssue) :
  answered (getProjects page perPage) (VObject props) ->
  get props "items" = VArray elements ->
  In d elements ->
  PlankaProjectSchema d = INVALID issue more ->
  exists cause_message,
    outcome (getProjects page perPage)
    = Rejected (ErrorInstance ("Failed to get projects: " ++ cause_message)).
Proof.
  intros Hanswered Hitems Hin Hinvalid.
  destruct (ProjectsResponseSchema_element_invalid props elements d issue more
              Hitems Hin Hinvalid) as [issue' [more' Hschema]].
  rewrite getProjects_common in *.
  rewrite (run_rejected _ _ _ _ _ _ _ _ Hanswered Hschema).
  eexists. reflexivity.
Qed.

(** X6: included is validated although the single-item operations discard
    it: on a response whose included is present and is not an object
    (null, an array, a string, ...), getProjects, getProject, createProject
    and updateProject are rejected under their prefixes. *)
Theorem included_must_be_object (props : properties_t) :
  ~ conforming_included (get props "included") ->
  (forall page perPage,
     answered (getProjects page perPage) (VObject props) ->
     exists cause_message,
       outcome (getProjects page perPage)
       = Rejected (ErrorInstance ("Failed to get projects: " ++ cause_message)))
  /\ (forall id,
     answered (getProject id) (VObject props) ->
     exists cause_message,
       outcome (getProject id)
       = Rejected (ErrorInstance ("Failed to get project: " ++ cause_message)))
  /\ (forall options,
     answered (createProject options) (VObject props) ->
     exists cause_message,
       outcome (createProject options)
       = Rejected (ErrorInstance ("Failed to create project: " ++ cause_message)))
  /\ (forall options,
     answered (updateProject options) (VObject props) ->
     exists cause_message,
       outcome (updateProject options)
       = Rejected (ErrorInstance ("Failed to update project: " ++ cause_message))).
Proof.
  intros H.
  destruct (response_included_invalid props H)
    as [[issue [more Hlist]] [issue' [more' Hsingle]]].
  split; [| split; [| split]].
  - intros page perPage Hanswered. rewrite getProjects_common in *.
    rewrite (run_rejected _ _ _ _ _ _ _ _ Hanswered Hlist).
    eexists. reflexivity.
  - intros id Hanswered. rewrite getProject_common in *.
    rewrite (run_rejected _ _ _ _ _ _ _ _ Hanswered Hsingle).
    eexists. reflexivity.
  - intros options Hanswered. rewrite createProject_common in *.
    rewrite (run_rejected _ _ _ _ _ _ _ _ Hanswered Hsingle).
    eexists. reflexivity.
  - intros options Hanswered. rewrite updateProject_common in *.
    rewrite (run_rejected _ _ _ _ _ _ _ _ Hanswered Hsingle).
    eexists. reflexivity.
Qed.

(** Merging twice is merging once, and a merged map conforms. *)
Lemma without_proto_idempotent (props : properties_t) :
  without_proto (without_proto props) = without_proto props.
Proof.
  unfold without_proto.
  induction props as [| [k d] rest IH]; cbn [List.filter fst].
  - reflexivity.
  - destruct (negb (String.eqb k "__proto__")) eqn:E; cbn [List.filter fst].
    + rewrite E, IH. reflexivity.
    + exact IH.
Qed.

Lemma merged_idempotent (v : value) : merged (merged v) = merged v.
Proof.
  destruct v; try reflexivity. simpl. rewrite without_proto_idempotent.
  reflexivity.
Qed.

Lemma merged_conforming (v : value) :
  conforming_included v -> conforming_included (merged v).
Proof.
  intros [-> | [entries ->]].
  - left. reflexivity.
  - right. eexists. reflexivity.
Qed.

(** The exact output of the single-item schema on a conforming response:
    [item] first, when its validated value is not undefined or the response
    has the key, then [included], merged, when the response has it. *)
Lemma ProjectResponseSchema_output (props : properties_t) (output : value) :
  ProjectResponseSchema (VObject props) = OK output ->
  exists item,
    PlankaProjectSchema (get props "item") = OK item
    /\ conforming_included (get props "included")
    /\ output
       = VObject
           ((if negb (is_undefined item) || has_property "item" props
             then [("item", item)] else [])
            ++ (if negb (is_undefined (get props "included"))
                   || has_property "included" props
                then [("included", merged (get props "included"))] else []))%list.
Proof.
  intros H.
  pose proof (ProjectResponseSchema_included props output H) as Hincluded.
  revert H. unfold ProjectResponseSchema, z_object, parse_shape.
  rewrite (included_valid _ Hincluded).
  destruct (PlankaProjectSchema (get props "item")) as [item | issue more];
    simpl; [| discriminate].
  rewrite merged_undefined.
  intros H. exists item. split; [reflexivity |]. split; [exact Hincluded |].
  destruct (negb (is_undefined (get props "included"))
            || has_property "included" props);
    destruct (negb (is_undefined item) || has_property "item" props);
    injection H as <-; reflexivity.
Qed.

(** An idempotent project schema makes both response schemas idempotent. *)
Lemma ProjectsResponseSchema_idempotent :
  idempotent PlankaProjectSchema -> idempotent ProjectsResponseSchema.
Proof.
  intros Hidem data output H.
  destruct (ProjectsResponseSchema_inversion _ _ H)
    as [props [elements [outputs [-> [Hitems [Hall [Hincluded ->]]]]]]].
  assert (Hfixed : Forall2 (fun d o => PlankaProjectSchema d = OK o) outputs outputs).
  { clear -Hall Hidem. induction Hall as [| d o rest outputs' Ho _ IH].
    - constructor.
    - constructor; [exact (Hidem d o Ho) | exact IH]. }
  destruct (negb (is_undefined (get props "included"))
            || has_property "included" props) eqn:E.
  - rewrite (ProjectsResponseSchema_valid
               [("items", VArray outputs);
                ("included", merged (get props "included"))]
               outputs outputs eq_refl Hfixed
               (merged_conforming _ Hincluded)).
    change (get [("items", VArray outputs);
                 ("included", merged (get props "included"))]
              "included")
      with (merged (get props "included")).
    change (has_property "included"
              [("items", VArray outputs);
               ("included", merged (get props "included"))])
      with true.
    rewrite orb_true_r, merged_idempotent. reflexivity.
  - apply orb_false_iff in E as [E _].
    exact (ProjectsResponseSchema_valid [("items", VArray outputs)]
             outputs outputs eq_refl Hfixed (or_introl eq_refl)).
Qed.

Lemma ProjectResponseSchema_idempotent :
  idempotent PlankaProjectSchema -> idempotent ProjectResponseSchema.
Proof.
  intros Hidem data output H.
  destruct (ProjectResponseSchema_inversion _ _ H) as [props [item0 [-> _]]].
  destruct (ProjectResponseSchema_output props output H)
    as [item [Hitem [Hincluded ->]]].
  pose proof (Hidem _ _ Hitem) as Hitem'.
  pose proof (included_valid _ (merged_conforming _ Hincluded)) as Hmerged.
  rewrite merged_idempotent in Hmerged.
  set (included := merged (get props "included")) in *.
  unfold ProjectResponseSchema, z_object, parse_shape.
  destruct (negb (is_undefined item) || has_property "item" props) eqn:Ei;
    destruct (negb (is_undefined (get props "included"))
              || has_property "included" props) eqn:Ec; simpl app.
  - change (get [("item", item); ("included", included)] "item") with item.
    change (get [("item", item); ("included", included)] "included")
      with included.
    rewrite Hitem', Hmerged. simpl.
    rewrite orb_true_r. change (has_property "item" _) with true.
    rewrite orb_true_r. reflexivity.
  - apply orb_false_iff in Ec as [Ec _]. apply negb_false_iff in Ec.
    change (get [("item", item)] "item") with item.
    change (get [("item", item)] "included") with VUndefined.
    rewrite Hitem'. simpl. change (has_property "item" _) with true.
    rewrite orb_true_r. reflexivity.
  - apply orb_false_iff in Ei as [Ei _]. apply negb_false_iff in Ei.
    destruct item; try discriminate.
    change (get [("included", included)] "item") with VUndefined.
    change (get [("included", included)] "included") with included.
    rewrite Hitem', Hmerged. simpl.
    rewrite orb_true_r. reflexivity.
  - apply orb_false_iff in Ei as [Ei _]. apply negb_false_iff in Ei.
    destruct item; try discriminate.
    change (get [] "item") with VUndefined.
    change (get [] "included") with VUndefined.
    rewrite Hitem'. reflexivity.
Qed.

(** X7: what the operations return conforms again. With a project schema
    that is idempotent, the value of a fulfilled getProjects validates to
    itself under the collection schema, the value of a fulfilled getProject,
    createProject or updateProject validates to itself under the project
    schema, and both response schemas are idempotent. *)
Theorem results_conform_again :
  idempotent PlankaProjectSchema ->
  (forall page perPage v,
     outcome (getProjects page perPage) = Fulfilled v ->
     ProjectsResponseSchema v = OK v)
  /\ (forall id v,
     outcome (getProject id) = Fulfilled v -> PlankaProjectSchema v = OK v)
  /\ (forall options v,
     outcome (createProject options) = Fulfilled v -> PlankaProjectSchema v = OK v)
  /\ (forall options v,
     outcome (updateProject options) = Fulfilled v -> PlankaProjectSchema v = OK v)
  /\ idempotent ProjectsResponseSchema
  /\ idempotent ProjectResponseSchema.
Proof.
  intros Hidem.
  split; [| split; [| split; [| split; [| split]]]].
  - intros page perPage v. rewrite getProjects_common, run_fulfilled.
    intros [response [output [_ [Hschema ->]]]].
    exact (ProjectsResponseSchema_idempotent Hidem _ _ Hschema).
  - intros id v H.
    apply (single_item_fulfilled _ _ _ _ v (getProject_common id)) in H.
    destruct H as [props [_ [Hitem _]]]. exact (Hidem _ _ Hitem).
  - intros options v H.
    apply (single_item_fulfilled _ _ _ _ v (createProject_common options)) in H.
    destruct H as [props [_ [Hitem _]]]. exact (Hidem _ _ Hitem).
  - intros options v H.
    apply (single_item_fulfilled _ _ _ _ v (updateProject_common options)) in H.
    destruct H as [props [_ [Hitem _]]]. exact (Hidem _ _ Hitem).
  - exact (ProjectsResponseSchema_idempotent Hidem).
  - exact (ProjectResponseSchema_idempotent Hidem).
Qed.

(** X8: for a perPage that is left out or is a number other than NaN (what
    GetProjectsSchema takes), the per-page value that getProjects sends is
    at most 100 in the sense of the comparison [<=], and a call with that
    value as perPage is the same run: capping twice changes nothing. *)
Theorem getProjects_per_page_at_most_100
    (page perPage : option number) :
  pagination_value (match perPage with Some p => VNumber p | None => VUndefined end) ->
  exists m,
    requests (getProjects page perPage)
    = [list_request match page with Some p => p | None => 1%float end m]
    /\ (m <=? 100)%float = true
    /\ getProjects page perPage = getProjects page (Some m).
Proof.
  intros Hvalue.
  assert (Hnan : PrimFloat.is_nan
                   match perPage with Some p => p | None => 30%float end = false).
  { destruct perPage as [p |].
    - destruct Hvalue as [H | [n [H Hn]]]; [discriminate |].
      injection H as <-. exact Hn.
    - reflexivity. }
  set (given := match perPage with Some p => p | None => 30%float end) in *.
  exists (if (100 <? given)%float then 100%float else given).
  split; [| split].
  - rewrite getProjects_run. reflexivity.
  - destruct (100 <? given)%float eqn:E.
    + reflexivity.
    + apply not_gt_leb; [exact Hnan | reflexivity | exact E].
  - rewrite !getProjects_run. cbv zeta. fold given.
    destruct (100 <? given)%float eqn:E.
    + reflexivity.
    + rewrite E. reflexivity.
Qed.

(** ** The input schemas *)

(** A schema of one required string key, other than [__proto__], takes
    exactly the objects that hold a string under that key, and puts out
    that key alone. *)
Lemma string_key_schema (key : string) (data output : value) :
  String.eqb key "__proto__" = false ->
  z_object [(key, z_string)] data = OK output <->
  exists props s,
    data = VObject props
    /\ get props key = VString s
    /\ output = VObject [(key, VString s)].
Proof.
  intros Hkey. split.
  - destruct data as [| | b | n | s | elements | props]; try discriminate.
    unfold z_object, parse_shape. rewrite Hkey.
    destruct (get props key) as [| | b | n | s | elements | props'] eqn:E;
      try discriminate.
    simpl. intros H. injection H as <-.
    exists props, s. repeat split; assumption.
  - intros [props [s [-> [Hget ->]]]].
    unfold z_object, parse_shape. rewrite Hkey, Hget. reflexivity.
Qed.

(** What an optional number takes. *)
Lemma optional_number (v output : value) :
  z_optional z_number v = OK output <-> pagination_value v /\ output = v.
Proof.
  split.
  - destruct v as [| | b | n | s | elements | props]; try discriminate; simpl.
    + intros H. injection H as <-. split; [left; reflexivity | reflexivity].
    + destruct (PrimFloat.is_nan n) eqn:E; [discriminate |].
      intros H. injection H as <-.
      split; [right; exists n; split; [reflexivity | exact E] | reflexivity].
  - intros [[-> | [n [-> Hn]]] ->]; simpl.
    + reflexivity.
    + rewrite Hn. reflexivity.
Qed.

(** X9: CreateProjectSchema, GetProjectSchema and DeleteProjectSchema take
    exactly the objects that hold a string under name (respectively id),
    the empty string included, and put out that key alone: a missing or
    non-string key is refused and any other key is stripped. The body that
    createProject posts for a name is the output of CreateProjectSchema on
    any input it accepts with that name. *)
Theorem single_key_input_schemas :
  (forall data output,
     CreateProjectSchema data = OK output <->
     exists props name,
       data = VObject props
       /\ get props "name" = VString name
       /\ output = VObject [("name", VString name)])
  /\ (forall data output,
     GetProjectSchema data = OK output <->
     exists props id,
       data = VObject props
       /\ get props "id" = VString id
       /\ output = VObject [("id", VString id)])
  /\ (forall data output,
     DeleteProjectSchema data = OK output <->
     exists props id,
       data = VObject props
       /\ get props "id" = VString id
       /\ output = VObject [("id", VString id)])
  /\ (forall props name output,
     CreateProjectSchema (VObject props) = OK output ->
     get props "name" = VString name ->
     exists c,
       requests (createProject (CreateProjectOptions.make name)) = [c]
       /\ sent_body c = Some output).
Proof.
  split; [| split; [| split]].
  - intros data output. exact (string_key_schema "name" data output eq_refl).
  - intros data output. exact (string_key_schema "id" data output eq_refl).
  - intros data output. exact (string_key_schema "id" data output eq_refl).
  - intros props name output H Hname.
    apply (string_key_schema "name" _ _ eq_refl) in H.
    destruct H as [props' [name' [Hprops [Hname' ->]]]].
    injection Hprops as <-. rewrite Hname in Hname'. injection Hname' as <-.
    rewrite createProject_run. eexists. split; reflexivity.
Qed.

(** X10: UpdateProjectSchema takes exactly the objects that hold a string
    under id and, under name, nothing or a string: a null name is refused.
    The output holds id, then name when the input has a string there; a
    name key that is present with the value undefined stays in the output
    as undefined. *)
Theorem UpdateProjectSchema_accepts (data output : value) :
  UpdateProjectSchema data = OK output <->
  exists props id,
    data = VObject props
    /\ get props "id" = VString id
    /\ ((get props "name" = VUndefined
         /\ output
            = VObject (("id", VString id)
                       :: if has_property "name" props
                          then [("name", VUndefined)] else []))
        \/ (exists name,
              get props "name" = VString name
              /\ output = VObject [("id", VString id); ("name", VString name)])).
Proof.
  split.
  - destruct data as [| | b | n | s | elements | props]; try discriminate.
    unfold UpdateProjectSchema, z_object, parse_shape.
    destruct (get props "id") as [| | b | n | id | elements | props'] eqn:Eid;
      destruct (get props "name") as [| | b' | n' | name | elements' | props'']
        eqn:Ename;
      try discriminate; simpl; intros H.
    + exists props, id. split; [reflexivity |]. split; [exact Eid |].
      left. split; [exact Ename |].
      destruct (has_property "name" props); injection H as <-; reflexivity.
    + exists props, id. split; [reflexivity |]. split; [exact Eid |].
      right. exists name. split; [exact Ename |].
      injection H as <-. reflexivity.
  - intros [props [id [-> [Hid [[Hname ->] | [name [Hname ->]]]]]]];
      unfold UpdateProjectSchema, z_object, parse_shape;
      rewrite Hid, Hname; simpl.
    + destruct (has_property "name" props); reflexivity.
    + reflexivity.
Qed.

(** X11: GetProjectsSchema takes exactly the objects whose page and perPage
    are each left out or a number other than NaN: it sets no lower bound,
    no upper bound and no integrality, and refuses NaN, null and numerals
    given as strings. *)
Theorem GetProjectsSchema_accepts (data : value) :
  (exists output, GetProjectsSchema data = OK output) <->
  exists props,
    data = VObject props
    /\ pagination_value (get props "page")
    /\ pagination_value (get props "perPage").
Proof.
  split.
  - intros [output H].
    destruct data as [| | b | n | s | elements | props]; try discriminate.
    exists props. split; [reflexivity |].
    unfold GetProjectsSchema, z_object, parse_shape in H.
    destruct (z_optional z_number (get props "page")) as [page | i m] eqn:Epage;
      destruct (z_optional z_number (get props "perPage"))
        as [perPage | i' m'] eqn:EperPage;
      try discriminate;
      try (simpl in H;
           destruct (negb (is_undefined page) || has_property "page" props);
           discriminate).
    split.
    + exact (proj1 (proj1 (optional_number _ _) Epage)).
    + exact (proj1 (proj1 (optional_number _ _) EperPage)).
  - intros [props [-> [Hpage HperPage]]].
    unfold GetProjectsSchema, z_object, parse_shape.
    rewrite (proj2 (optional_number (get props "page") _) (conj Hpage eq_refl)).
    rewrite (proj2 (optional_number (get props "perPage") _)
               (conj HperPage eq_refl)).
    simpl. eexists. reflexivity.
Qed.

(** ** The query string *)

Lemma all_urlencoded_app (a b : string) :
  all_urlencoded (a ++ b) = all_urlencoded a && all_urlencoded b.
Proof.
  induction a as [| c rest IH]; simpl.
  - reflexivity.
  - rewrite IH. apply andb_assoc.
Qed.

(** The two hexadecimal digits of a byte are characters the serializer
    keeps. *)
Lemma percent_encode_urlencoded (c : ascii) :
  all_urlencoded (percent_encode c) = true.
Proof.
  destruct c as [[|] [|] [|] [|] [|] [|] [|] [|]]; vm_compute; reflexivity.
Qed.

Lemma urlencode_urlencoded (s : string) : all_urlencoded (urlencode s) = true.
Proof.
  induction s as [| c rest IH]; simpl.
  - reflexivity.
  - rewrite all_urlencoded_app, IH, andb_true_r.
    destruct (urlencoded_keep c) eqn:Ekeep.
    + simpl. unfold urlencoded_char. rewrite Ekeep. reflexivity.
    + destruct (Ascii.eqb c " ").
      * reflexivity.
      * apply percent_encode_urlencoded.
Qed.

(** None of the characters that structure a URL is one the serializer
    puts out. *)
Lemma urlencoded_char_no_separator (c : ascii) :
  urlencoded_char c = true ->
  c <> "&"%char /\ c <> "="%char /\ c <> "?"%char /\ c <> "#"%char
  /\ c <> "/"%char /\ c <> " "%char.
Proof.
  intros H. repeat split; intros ->; vm_compute in H; discriminate.
Qed.

(** X12: whatever the renderings of page and perPage are, the path of
    getProjects is /api/projects?page=A&per_page=B where A and B are made
    of characters the form-urlencoded serializer puts out, none of which is
    an ampersand, an equals sign, a question mark, a hash, a slash or a
    space: the values cannot add or end a parameter of the query. *)
Theorem getProjects_query_well_formed (page perPage : option number) :
  exists c a b,
    requests (getProjects page perPage) = [c]
    /\ call_path c = "/api/projects?page=" ++ a ++ "&per_page=" ++ b
    /\ all_urlencoded a = true
    /\ all_urlencoded b = true
    /\ (forall ch, urlencoded_char ch = true ->
          ch <> "&"%char /\ ch <> "="%char /\ ch <> "?"%char /\ ch <> "#"%char
          /\ ch <> "/"%char /\ ch <> " "%char).
Proof.
  rewrite getProjects_run. cbv zeta.
  eexists. eexists. eexists.
  split; [reflexivity |]. split; [reflexivity |].
  split; [apply urlencode_urlencoded |].
  split; [apply urlencode_urlencoded |].
  exact urlencoded_char_no_separator.
Qed.

End Projects.

(** ** The properties on concrete runs *)

(** A request for 150 per page is sent as 100, one for 30 as 30. *)
Lemma getProjects_per_page_sent_witness :
  ((100 <? 150)%float = true
   /\ requests (getProjects Number_toString_plain issue_messages
                  ProjectRecordSchema (answering VNull)
                  (Some 1%float) (Some 150%float))
      = [list_request Number_toString_plain 1%float 100%float])
  /\ ((30 <=? 100)%float = true
      /\ requests (getProjects Number_toString_plain issue_messages
                     ProjectRecordSchema (answering VNull)
                     (Some 2%float) (Some 30%float))
         = [list_request Number_toString_plain 2%float 30%float]).
Proof.
  destruct (getProjects_per_page_sent Number_toString_plain issue_messages
              ProjectRecordSchema (answering VNull)) as [Hover [Hwithin _]].
  split; (split; [reflexivity |]).
  - apply Hover. reflexivity.
  - apply Hwithin. reflexivity.
Defined.

(** A collection response without items makes getProjects fail. *)
Lemma nonconforming_response_fails_witness :
  answered (answering (VObject []))
    (getProjects Number_toString_plain issue_messages ProjectRecordSchema
       (answering (VObject [])) None None)
    (VObject [])
  /\ ProjectsResponseSchema ProjectRecordSchema (VObject [])
     = INVALID (mkIssue "invalid_type" [Key "items"] "Required") []
  /\ exists message,
       outcome (getProjects Number_toString_plain issue_messages
                  ProjectRecordSchema (answering (VObject [])) None None)
       = Rejected (ErrorInstance message).
Proof.
  assert (Hanswered :
    answered (answering (VObject []))
      (getProjects Number_toString_plain issue_messages ProjectRecordSchema
         (answering (VObject [])) None None)
      (VObject [])).
  { eexists. split; reflexivity. }
  split; [exact Hanswered |]. split; [reflexivity |].
  destruct (nonconforming_response_fails Number_toString_plain issue_messages
              ProjectRecordSchema (answering (VObject []))) as [Hlist _].
  apply (Hlist None None (VObject [])
           (mkIssue "invalid_type" [Key "items"] "Required") []).
  - exact Hanswered.
  - reflexivity.
Defined.

(** A request that fails with the Error "Not Found", and one that fails
    with a thrown array, surface under the prefix of the operation. *)
Lemma operations_uniform_errors_witness :
  (refused (failing (ErrorInstance "Not Found"))
     (getProject Number_toString_plain issue_messages ProjectRecordSchema
        (failing (ErrorInstance "Not Found")) "7")
     (ErrorInstance "Not Found")
   /\ outcome (getProject Number_toString_plain issue_messages
                 ProjectRecordSchema (failing (ErrorInstance "Not Found")) "7")
      = Rejected (ErrorInstance "Failed to get project: Not Found"))
  /\ (let cause := VArray [VString "offline"; VNull; VNumber 3%float; VBool true] in
      refused (failing (NotAnError cause))
        (deleteProject Number_toString_plain (failing (NotAnError cause)) "7")
        (NotAnError cause)
      /\ ToString Number_toString_plain cause "offline,,3,true"
      /\ outcome (deleteProject Number_toString_plain
                    (failing (NotAnError cause)) "7")
         = Rejected (ErrorInstance "Failed to delete project: offline,,3,true")).
Proof.
  split.
  - assert (Hrefused :
      refused (failing (ErrorInstance "Not Found"))
        (getProject Number_toString_plain issue_messages ProjectRecordSchema
           (failing (ErrorInstance "Not Found")) "7")
        (ErrorInstance "Not Found")).
    { eexists. split; reflexivity. }
    split; [exact Hrefused |].
    destruct (operations_uniform_errors Number_toString_plain issue_messages
                ProjectRecordSchema (failing (ErrorInstance "Not Found")))
      as [_ [Hget _]].
    destruct (Hget "7") as [Herror _].
    exact (Herror "Not Found" Hrefused).
  - cbv zeta.
    set (cause := VArray [VString "offline"; VNull; VNumber 3%float; VBool true]).
    assert (Hrefused :
      refused (failing (NotAnError cause))
        (deleteProject Number_toString_plain (failing (NotAnError cause)) "7")
        (NotAnError cause)).
    { eexists. split; reflexivity. }
    assert (Htext : ToString Number_toString_plain cause "offline,,3,true").
    { apply (ToString_array Number_toString_plain _ ["offline"; ""; "3"; "true"]).
      apply ToStrings_element; [discriminate | discriminate | constructor |].
      apply ToStrings_null.
      apply ToStrings_element;
        [discriminate | discriminate
         | exact (ToString_number Number_toString_plain 3%float) |].
      apply ToStrings_element; [discriminate | discriminate | constructor |].
      constructor. }
    split; [exact Hrefused |]. split; [exact Htext |].
    destruct (operations_uniform_errors Number_toString_plain issue_messages
                ProjectRecordSchema (failing (NotAnError cause)))
      as [_ [_ [_ [_ Hdelete]]]].
    destruct (Hdelete "7") as [_ [Hvalue _]].
    exact (Hvalue cause "offline,,3,true" Hrefused Htext).
Defined.

(** Deleting project 5 succeeds on an answer that is no object at all. *)
Lemma deleteProject_success_witness :
  answered (answering (VString "gone"))
    (deleteProject Number_toString_plain (answering (VString "gone")) "5")
    (VString "gone")
  /\ outcome (deleteProject Number_toString_plain (answering (VString "gone")) "5")
     = Fulfilled (VObject [("success", VBool true)]).
Proof.
  assert (Hanswered :
    answered (answering (VString "gone"))
      (deleteProject Number_toString_plain (answering (VString "gone")) "5")
      (VString "gone")).
  { eexists. split; reflexivity. }
  split; [exact Hanswered |].
  exact (deleteProject_success Number_toString_plain
           (answering (VString "gone")) "5" (VString "gone") Hanswered).
Defined.

(** Project 42 is read from a response that also carries included
    entities and a key the schema does not name. *)
Lemma getProject_returns_item_witness :
  let response :=
    VObject [("item", VObject [("id", VString "42"); ("name", VString "Demo")]);
             ("included", VObject [("users", VArray [VNull])]);
             ("meta", VBool true)] in
  let validated :=
    VObject [("item", VObject [("id", VString "42"); ("name", VString "Demo")]);
             ("included", VObject [("users", VArray [VNull])])] in
  let run :=
    getProject Number_toString_plain issue_messages ProjectRecordSchema
      (answering response) "42" in
  answered (answering response) run response
  /\ ProjectResponseSchema ProjectRecordSchema response = OK validated
  /\ outcome run = Fulfilled (VObject [("id", VString "42"); ("name", VString "Demo")]).
Proof.
  cbv zeta.
  match goal with |- answered ?remote ?run ?response /\ _ =>
    assert (Hanswered : answered remote run response)
      by (eexists; split; reflexivity);
    split; [exact Hanswered |]; split; [reflexivity |];
    destruct (getProject_returns_item Number_toString_plain issue_messages
                ProjectRecordSchema remote "42" response _ Hanswered eq_refl)
      as [props [item [Hresponse [Hitem Houtcome]]]]
  end.
  injection Hresponse as <-.
  rewrite Houtcome. f_equal.
  change (OK (VObject [("id", VString "42"); ("name", VString "Demo")]) = OK item)
    in Hitem.
  injection Hitem as <-. reflexivity.
Defined.

(** The collection read of page 1 with 150 per page asks for
    /api/projects?page=1&per_page=100. *)
Lemma operations_method_and_path_witness :
  exists c,
    requests (getProjects Number_toString_plain issue_messages ProjectRecordSchema
                (answering VNull) (Some 1%float) (Some 150%float)) = [c]
    /\ effective_method c = "GET"
    /\ call_path c = "/api/projects?page=1&per_page=100".
Proof.
  destruct (operations_method_and_path Number_toString_plain issue_messages
              ProjectRecordSchema (answering VNull)) as [Hlist _].
  destruct (Hlist (Some 1%float) (Some 150%float))
    as [c [n [m [Hrequests [Hn [Hm [Hmethod [_ Hplain]]]]]]]].
  exists c. split; [exact Hrequests |]. split; [exact Hmethod |].
  rewrite Hplain; subst n m; reflexivity.
Defined.

(** Page -3 with -7 per page goes out as it is. *)
Lemma getProjects_no_lower_bound_witness :
  (100 <? -7)%float = false
  /\ requests (getProjects Number_toString_plain issue_messages ProjectRecordSchema
                 (answering VNull) (Some (-3)%float) (Some (-7)%float))
     = [mkCall "/api/projects?page=-3&per_page=-7"
          (Some (mkOptions (Some "GET") None))].
Proof.
  split; [reflexivity |].
  destruct (getProjects_no_lower_bound Number_toString_plain issue_messages
              ProjectRecordSchema (answering VNull)) as [Hkept _].
  transitivity [list_request Number_toString_plain (-3)%float (-7)%float].
  - apply (Hkept (-3)%float (-7)%float). reflexivity.
  - reflexivity.
Defined.

(** C7, the claim as stated fails: with the empty string as name,
    createProject makes the POST with the body holding the empty name and
    succeeds with the project the remote service returns. *)
Lemma createProject_empty_name_posted :
  createProject Number_toString_plain issue_messages ProjectRecordSchema
    (answering (VObject [("item", VObject [("id", VString "9"); ("name", VString "")])]))
    (CreateProjectOptions.make "")
  = ([mkCall "/api/projects"
        (Some (mkOptions (Some "POST") (Some (VObject [("name", VString "")]))))],
     Fulfilled (VObject [("id", VString "9"); ("name", VString "")])).
Proof. reflexivity. Qed.

(** C8, the claim as stated fails: with the empty string as id, getProject
    makes the request to /api/projects/ and succeeds with the project the
    remote service returns. *)
Lemma getProject_empty_id_requested :
  getProject Number_toString_plain issue_messages ProjectRecordSchema
    (answering (VObject [("item", VObject [("id", VString "1"); ("name", VString "Demo")])]))
    ""
  = ([mkCall "/api/projects/" None],
     Fulfilled (VObject [("id", VString "1"); ("name", VString "Demo")])).
Proof. reflexivity. Qed.

(** C4, the claim as stated fails: when the request fails with a value that
    is no Error and that [String] cannot convert (an object with an own
    property toString that is not a function), the conversion in the catch
    block throws, and deleteProject is rejected with that TypeError, whose
    message does not carry the prefix of the operation. *)
Lemma deleteProject_unconvertible_cause :
  deleteProject Number_toString_plain
    (failing (NotAnError (VObject [("toString", VNull)]))) "5"
  = ([mkCall "/api/projects/5" (Some (mkOptions (Some "DELETE") None))],
     Rejected (ErrorInstance "Cannot convert object to primitive value"))
  /\ (forall cause_message,
        ErrorInstance "Cannot convert object to primitive value"
        <> ErrorInstance ("Failed to delete project: " ++ cause_message)).
Proof.
  split; [reflexivity |].
  intros cause_message H. simpl in H. discriminate.
Qed.

(** Creating the project "New": the POST carries the name and the result
    is the project of the response. *)
Lemma create_update_return_item_witness :
  createProject Number_toString_plain issue_messages ProjectRecordSchema
    (answering (VObject [("item", VObject [("id", VString "9"); ("name", VString "New")])]))
    (CreateProjectOptions.make "New")
  = ([mkCall "/api/projects"
        (Some (mkOptions (Some "POST") (Some (VObject [("name", VString "New")]))))],
     Fulfilled (VObject [("id", VString "9"); ("name", VString "New")])).
Proof.
  set (response :=
    VObject [("item", VObject [("id", VString "9"); ("name", VString "New")])]).
  destruct (create_update_return_item Number_toString_plain issue_messages
              ProjectRecordSchema (answering response) response response eq_refl)
    as [props [item [Hresponse [Hitem [Hcreate _]]]]].
  injection Hresponse as <-.
  change (OK (VObject [("id", VString "9"); ("name", VString "New")]) = OK item)
    in Hitem.
  injection Hitem as <-.
  assert (Hanswered :
    answered (answering response)
      (createProject Number_toString_plain issue_messages ProjectRecordSchema
         (answering response) (CreateProjectOptions.make "New"))
      response) by (eexists; split; reflexivity).
  specialize (Hcreate (CreateProjectOptions.make "New") Hanswered).
  unfold outcome in Hcreate.
  rewrite (surjective_pairing
             (createProject Number_toString_plain issue_messages
                ProjectRecordSchema (answering response)
                (CreateProjectOptions.make "New"))).
  rewrite Hcreate. reflexivity.
Defined.

(** A collection of one project: the key the schema does not name is not
    part of the result. *)
Lemma getProjects_returns_validated_witness :
  let response :=
    VObject [("items", VArray [VObject [("id", VString "1"); ("name", VString "A")]]);
             ("total", VNumber 1%float)] in
  let validated :=
    VObject [("items", VArray [VObject [("id", VString "1"); ("name", VString "A")]])] in
  let run :=
    getProjects Number_toString_plain issue_messages ProjectRecordSchema
      (answering response) None None in
  answered (answering response) run response
  /\ ProjectsResponseSchema ProjectRecordSchema response = OK validated
  /\ outcome run = Fulfilled validated.
Proof.
  cbv zeta.
  match goal with |- answered ?remote ?run ?response /\ _ =>
    assert (Hanswered : answered remote run response)
      by (eexists; split; reflexivity);
    split; [exact Hanswered |]; split; [reflexivity |];
    exact (proj1 (getProjects_returns_validated Number_toString_plain
                    issue_messages ProjectRecordSchema remote None None
                    response _ Hanswered eq_refl))
  end.
Defined.

(** Filtering twice is filtering once. *)
Lemma filter_twice {A : Type} (keep : A -> bool) (l : list A) :
  List.filter keep (List.filter keep l) = List.filter keep l.
Proof.
  induction l as [| a rest IH]; cbn [List.filter].
  - reflexivity.
  - destruct (keep a) eqn:E; cbn [List.filter].
    + rewrite E, IH. reflexivity.
    + exact IH.
Qed.

(** The project schema modelled from the spec is idempotent. *)
Lemma ProjectRecordSchema_idempotent : idempotent ProjectRecordSchema.
Proof.
  intros data output.
  destruct data as [| | b | n | s | elements | props]; try discriminate.
  unfold ProjectRecordSchema, z_object_passthrough, parse_shape.
  destruct (get props "id") as [| | b | n | id | elements | props'];
    destruct (get props "name") as [| | b' | n' | name | elements' | props''];
    try discriminate.
  intros H. injection H as <-.
  set (shape := [("id", z_string); ("name", z_string)]).
  change (get
            ((("id", VString id) :: ("name", VString name) :: [])
             ++ unknown_keys shape props)%list "id")
    with (VString id).
  change (get
            ((("id", VString id) :: ("name", VString name) :: [])
             ++ unknown_keys shape props)%list "name")
    with (VString name).
  cbn [z_string issues_of app negb is_undefined orb andb].
  change (String.eqb "id" "__proto__") with false.
  change (String.eqb "name" "__proto__") with false.
  cbn [negb andb orb].
  change (unknown_keys shape
            (("id", VString id) :: ("name", VString name)
             :: unknown_keys shape props))
    with (unknown_keys shape (unknown_keys shape props)).
  unfold unknown_keys. rewrite filter_twice. reflexivity.
Qed.

(** A list of two elements of which the second is null is refused as a
    whole. *)
Lemma getProjects_no_partial_list_witness :
  let response :=
    VObject [("items",
              VArray [VObject [("id", VString "1"); ("name", VString "A")]; VNull])] in
  let run :=
    getProjects Number_toString_plain issue_messages ProjectRecordSchema
      (answering response) None None in
  answered (answering response) run response
  /\ In VNull [VObject [("id", VString "1"); ("name", VString "A")]; VNull]
  /\ ProjectRecordSchema VNull = INVALID (invalid_type "object" VNull) []
  /\ exists cause_message,
       outcome run
       = Rejected (ErrorInstance ("Failed to get projects: " ++ cause_message)).
Proof.
  cbv zeta.
  match goal with |- answered ?remote ?run ?response /\ _ =>
    assert (Hanswered : answered remote run response)
      by (eexists; split; reflexivity)
  end.
  assert (Hin : In VNull [VObject [("id", VString "1"); ("name", VString "A")]; VNull])
    by (right; left; reflexivity).
  split; [exact Hanswered |]. split; [exact Hin |]. split; [reflexivity |].
  exact (getProjects_no_partial_list Number_toString_plain issue_messages
           ProjectRecordSchema _ None None _ _ VNull
           (invalid_type "object" VNull) [] Hanswered eq_refl Hin eq_refl).
Defined.

(** A response whose included is null makes getProject fail although the
    item is a valid project. *)
Lemma included_must_be_object_witness :
  let props :=
    [("item", VObject [("id", VString "42"); ("name", VString "Demo")]);
     ("included", VNull)] in
  let run :=
    getProject Number_toString_plain issue_messages ProjectRecordSchema
      (answering (VObject props)) "42" in
  ~ conforming_included (get props "included")
  /\ answered (answering (VObject props)) run (VObject props)
  /\ exists cause_message,
       outcome run
       = Rejected (ErrorInstance ("Failed to get project: " ++ cause_message)).
Proof.
  cbv zeta.
  match goal with |- ~ conforming_included (get ?props _) /\ _ =>
    assert (Hincluded : ~ conforming_included (get props "included"))
      by (intros [H | [entries H]]; discriminate);
    split; [exact Hincluded |];
    destruct (included_must_be_object Number_toString_plain issue_messages
                ProjectRecordSchema (answering (VObject props)) props Hincluded)
      as [_ [Hget _]]
  end.
  match goal with |- answered ?remote ?run ?response /\ _ =>
    assert (Hanswered : answered remote run response)
      by (eexists; split; reflexivity)
  end.
  split; [exact Hanswered |]. exact (Hget "42" Hanswered).
Defined.

(** The collection the operation returns validates to itself. *)
Lemma results_conform_again_witness :
  let response :=
    VObject [("items", VArray [VObject [("id", VString "1"); ("name", VString "A");
                                        ("extra", VNull)]]);
             ("total", VNumber 1%float)] in
  let validated :=
    VObject [("items", VArray [VObject [("id", VString "1"); ("name", VString "A");
                                        ("extra", VNull)]])] in
  outcome (getProjects Number_toString_plain issue_messages ProjectRecordSchema
             (answering response) None None) = Fulfilled validated
  /\ ProjectsResponseSchema ProjectRecordSchema validated = OK validated.
Proof.
  cbv zeta. split; [reflexivity |].
  destruct (results_conform_again Number_toString_plain issue_messages
              ProjectRecordSchema
              (answering
                 (VObject
                    [("items", VArray [VObject [("id", VString "1");
                                                ("name", VString "A");
                                                ("extra", VNull)]]);
                     ("total", VNumber 1%float)]))
              ProjectRecordSchema_idempotent) as [Hlist _].
  exact (Hlist None None _ eq_refl).
Defined.

(** 150 per page is sent as 100, which is at most 100, and asking for 100
    is the same run. *)
Lemma getProjects_per_page_at_most_100_witness :
  pagination_value (VNumber 150%float)
  /\ exists m,
       requests (getProjects Number_toString_plain issue_messages
                   ProjectRecordSchema (answering VNull) None (Some 150%float))
       = [list_request Number_toString_plain 1%float m]
       /\ (m <=? 100)%float = true
       /\ getProjects Number_toString_plain issue_messages ProjectRecordSchema
            (answering VNull) None (Some 150%float)
          = getProjects Number_toString_plain issue_messages ProjectRecordSchema
              (answering VNull) None (Some m).
Proof.
  assert (Hvalue : pagination_value (VNumber 150%float))
    by (right; exists 150%float; split; reflexivity).
  split; [exact Hvalue |].
  exact (getProjects_per_page_at_most_100 Number_toString_plain issue_messages
           ProjectRecordSchema (answering VNull) None (Some 150%float) Hvalue).
Defined.

(** A collection whose included map has an own [__proto__] entry: the
    result holds the other entries of the map. *)
Lemma getProjects_fulfilled_iff_witness :
  let project := VObject [("id", VString "1"); ("name", VString "A")] in
  let props :=
    [("items", VArray [project]);
     ("included",
      VObject [("__proto__", VObject [("admin", VBool true)]);
               ("users", VArray [])])] in
  outcome (getProjects Number_toString_plain issue_messages ProjectRecordSchema
             (answering (VObject props)) None None)
  = Fulfilled (VObject [("items", VArray [project]);
                        ("included", VObject [("users", VArray [])])]).
Proof.
  cbv zeta.
  apply (proj2 (getProjects_fulfilled_iff Number_toString_plain issue_messages
                  ProjectRecordSchema _ None None _)).
  eexists. exists [VObject [("id", VString "1"); ("name", VString "A")]].
  exists [VObject [("id", VString "1"); ("name", VString "A")]].
  split; [eexists; split; reflexivity |].
  split; [reflexivity |].
  split; [constructor; [reflexivity | constructor] |].
  split; [right; eexists; reflexivity | reflexivity].
Defined.
